(** * Kimera-RPGO, examples/Comparison.cpp: the g2o comparison driver

    A shallow embedding of [main] and of the [Simulate] template of
    [examples/Comparison.cpp], and the properties of the driver that the
    design document states.

    The driver is sequential code that talks to three collaborators: the
    solver-parameter object [RobustSolverParams], gtsam's dataset reader and
    the [RobustSolver].  A run is embedded as the list of calls it makes on
    them (its trace) together with its outcome, which is a value or the
    failure that ended the run. *)

From Stdlib Require Import ZArith String List Bool Lia.
From Stdlib Require Import Floats.SpecFloat.
From stdpp Require Import base option list gmap strings.

Local Open Scope string_scope.

(** ** Numbers *)

(** A C++ [double] is an IEEE 754 binary64 value. *)
Definition double : Type := spec_float.

Definition prec : Z := 53.
Definition emax : Z := 1024.

(** [std::numeric_limits<double>::max()]: (2^53 - 1) * 2^971. *)
Definition DBL_MAX : double := Eval cbv in SFmax_float prec emax.

(** The entries of [Eigen::VectorXd::Zero]. *)
Definition zero : double := S754_zero false.

(** ** gtsam data *)

Definition Key : Type := N.

Record Pose2 := mkPose2 { x : double; y : double; theta : double }.

(** A 3D pose: a rotation matrix (row major) and a translation. *)
Record Pose3 := mkPose3 { rotation : list double; translation : list double }.

(** [gtsam::Values] holds values of several types; [at<T>] checks the type
    of the stored value when it reads it. *)
Inductive Value :=
| VPose2 (p : Pose2)
| VPose3 (p : Pose3).

Inductive SharedNoiseModel :=
| NullModel
| DiagonalSigmas (sigmas : list double)
| GaussianInformation (info : list double).

Inductive NonlinearFactor :=
| BetweenFactor (key1 key2 : Key) (measured : Value) (model : SharedNoiseModel)
| PriorFactor (key : Key) (prior : Value) (model : SharedNoiseModel)
| OtherFactor (keys : list Key).

(** [Factor::keys()]. *)
Definition keys (f : NonlinearFactor) : list Key :=
  match f with
  | BetweenFactor key1 key2 _ _ => [key1; key2]
  | PriorFactor key _ _ => [key]
  | OtherFactor ks => ks
  end.

Definition NonlinearFactorGraph : Type := list NonlinearFactor.

Abbreviation Values := (gmap Key Value).

(** [gtsam::GraphAndValues]: the pair that the dataset reader returns. *)
Definition GraphAndValues : Type := NonlinearFactorGraph * Values.

(** The template parameter [T] of [Simulate]: a pose type that can be stored
    in and read back from [gtsam::Values].  [getDim] stands for
    [getDim<T>()] of utils/type_utils.h. *)
Class PoseType (T : Type) := {
  getDim : nat;
  to_value : T -> Value;
  of_value : Value -> option T
}.
Global Arguments getDim T {_}.

(** The noise formats of gtsam/slam/dataset.h. *)
Inductive NoiseFormat :=
| NoiseFormatG2O
| NoiseFormatTORO
| NoiseFormatGRAPH
| NoiseFormatCOV
| NoiseFormatAUTO.

(** ** KimeraRPGO configuration types *)

Inductive MaxCliqueMethod := PMC_EXACT | PMC_HEU | CLIPPER.

Inductive Verbosity := UPDATE | QUIET | VERBOSE.

Inductive OutlierRemovalMethod := NONE | PCM2D | PCM3D | PCM_Simple2D | PCM_Simple3D.

(** Modelled from the spec: [RobustSolverParams] with its setters is declared
    in KimeraRPGO/SolverParams.h, which is not part of the sources at hand.
    The fields follow the configuration surface of the design document (PCM
    mode, thresholds, GNC mode and inlier-cost threshold, max-clique method,
    output directory, verbosity).  The two threshold pairs are kept apart, as
    the usage comment of the driver names them: [pcm_odo_thresh] and
    [pcm_lc_thresh] for the original PCM, [pcm_t_simple_thresh] and
    [pcm_R_simple_thresh] for the simple one. *)
Record RobustSolverParams := mkParams {
  outlierRemovalMethod : OutlierRemovalMethod;
  verbosity : Verbosity;
  pcm_odomThreshold : double;
  pcm_lcThreshold : double;
  pcmDist_transThreshold : double;
  pcmDist_rotThreshold : double;
  max_clique_method : MaxCliqueMethod;
  use_gnc : bool;
  gnc_inlier_cost : double;
  log_output : bool;
  log_folder : string
}.

(** The calls that [main] makes on its [params] object. *)
Inductive ParamsCall :=
| logOutput (output_folder : string)
| setPcm2DParams (odomThreshold lcThreshold : double) (verbos : Verbosity)
| setPcmSimple2DParams (transThreshold rotThreshold : double) (verbos : Verbosity)
| setMaxCliqueMethod (method : MaxCliqueMethod)
| setGncInlierCostThresholds (cost : double).

(** Modelled from the spec: what each setter of SolverParams.h (not part of
    the sources at hand) stores.  A setter writes the fields of its own
    group and leaves every other field as it was. *)
Definition apply_call (c : ParamsCall) (p : RobustSolverParams) : RobustSolverParams :=
  match c with
  | logOutput output_folder =>
      mkParams (outlierRemovalMethod p) (verbosity p)
               (pcm_odomThreshold p) (pcm_lcThreshold p)
               (pcmDist_transThreshold p) (pcmDist_rotThreshold p)
               (max_clique_method p) (use_gnc p) (gnc_inlier_cost p)
               true output_folder
  | setPcm2DParams odomThreshold lcThreshold verbos =>
      mkParams PCM2D verbos
               odomThreshold lcThreshold
               (pcmDist_transThreshold p) (pcmDist_rotThreshold p)
               (max_clique_method p) (use_gnc p) (gnc_inlier_cost p)
               (log_output p) (log_folder p)
  | setPcmSimple2DParams transThreshold rotThreshold verbos =>
      mkParams PCM_Simple2D verbos
               (pcm_odomThreshold p) (pcm_lcThreshold p)
               transThreshold rotThreshold
               (max_clique_method p) (use_gnc p) (gnc_inlier_cost p)
               (log_output p) (log_folder p)
  | setMaxCliqueMethod method =>
      mkParams (outlierRemovalMethod p) (verbosity p)
               (pcm_odomThreshold p) (pcm_lcThreshold p)
               (pcmDist_transThreshold p) (pcmDist_rotThreshold p)
               method (use_gnc p) (gnc_inlier_cost p)
               (log_output p) (log_folder p)
  | setGncInlierCostThresholds cost =>
      mkParams (outlierRemovalMethod p) (verbosity p)
               (pcm_odomThreshold p) (pcm_lcThreshold p)
               (pcmDist_transThreshold p) (pcmDist_rotThreshold p)
               (max_clique_method p) true cost
               (log_output p) (log_folder p)
  end.

(** ** Runs: trace and outcome *)

Inductive LogLevel := INFO | WARNING.

(** What a run does to the outside, in program order. *)
Inductive Event :=
| Log (level : LogLevel) (msg : string)
| ParamsSet (c : ParamsCall)
| Load2D (filename : string) (model : SharedNoiseModel) (maxIndex : nat)
         (addNoise smart : bool) (noiseFormat : NoiseFormat)
| Load3D (filename : string)
| NewRobustSolver (params : RobustSolverParams)
| Update (nfg : NonlinearFactorGraph) (values : Values)
| SaveData (output_folder : string).

(** What ends a run before its last statement. *)
Inductive Failure :=
| NullArgument (i : nat)
| LoadFailed (filename : string)
| GraphIndexOutOfRange (i : nat)
| FactorWithoutKeys
| ValuesKeyDoesNotExist (k : Key)
| ValuesIncorrectType (k : Key)
| CalleeThrew (callee : string).

Inductive Outcome (A : Type) :=
| Done (a : A)
| Aborted (why : Failure).
Global Arguments Done {A} a.
Global Arguments Aborted {A} why.

Record Run (A : Type) := mkRun { trace : list Event; outcome : Outcome A }.
Global Arguments mkRun {A} trace outcome.
Global Arguments trace {A} r.
Global Arguments outcome {A} r.

Global Instance Run_ret : MRet Run := fun A a => mkRun [] (Done a).

Global Instance Run_bind : MBind Run := fun A B k r =>
  match outcome r with
  | Done a => mkRun (trace r ++ trace (k a))%list (outcome (k a))
  | Aborted why => mkRun (trace r) (Aborted why)
  end.

Global Instance Run_fmap : FMap Run := fun A B f r =>
  match outcome r with
  | Done a => mkRun (trace r) (Done (f a))
  | Aborted why => mkRun (trace r) (Aborted why)
  end.

Definition emit (e : Event) : Run unit := mkRun [e] (Done tt).

Definition abort {A : Type} (why : Failure) : Run A := mkRun [] (Aborted why).

(** [log<level>(msg)] of KimeraRPGO/logger.h. *)
Definition log (level : LogLevel) (msg : string) : Run unit := emit (Log level msg).

(** [params.c(...)]: the call is recorded and the object updated. *)
Definition invoke (c : ParamsCall) (params : RobustSolverParams) : Run RobustSolverParams :=
  emit (ParamsSet c);; mret (apply_call c params).

(** ** The gtsam calls of the driver *)

(** [argv[i]] converted to a [std::string] or handed to [atof]: from entry
    [argc] on there is no string to read, and the run ends there. *)
Definition arg (argv : list string) (i : nat) : Run string :=
  match argv !! i with
  | Some s => mret s
  | None => abort (NullArgument i)
  end.

(** [nfg[i]]. *)
Definition graph_at (nfg : NonlinearFactorGraph) (i : nat) : Run NonlinearFactor :=
  match nfg !! i with
  | Some f => mret f
  | None => abort (GraphIndexOutOfRange i)
  end.

(** [f->front()]: the first key of a factor.  On a factor without keys the
    call is undefined in C++ (line 44 has no guard); this definition ends the
    run there, and [front_in] below leaves the result to the environment. *)
Definition front (f : NonlinearFactor) : Run Key :=
  match keys f with
  | k :: _ => mret k
  | [] => abort FactorWithoutKeys
  end.

(** [values.at<T>(k)]: throws when [k] is absent or holds another type. *)
Definition values_at (T : Type) `{PoseType T} (values : Values) (k : Key) : Run T :=
  match values !! k with
  | None => abort (ValuesKeyDoesNotExist k)
  | Some v =>
      match of_value v with
      | Some t => mret t
      | None => abort (ValuesIncorrectType k)
      end
  end.

(** The two pose types of gtsam.  Their dimensions stand for what
    [getDim<T>()] of utils/type_utils.h returns: three parameters for a 2D
    pose (x, y, heading), six for a 3D one. *)
Global Instance Pose2_PoseType : PoseType Pose2 := {|
  getDim := 3;
  to_value := VPose2;
  of_value := fun v => match v with VPose2 p => Some p | VPose3 _ => None end
|}.

Global Instance Pose3_PoseType : PoseType Pose3 := {|
  getDim := 6;
  to_value := VPose3;
  of_value := fun v => match v with VPose3 p => Some p | VPose2 _ => None end
|}.

(** ** Simulate (lines 28-55) *)

(** The run of [Simulate] in which each call on the solver returns: the
    constructor, [update] and [saveData] are recorded as they are made.
    [Simulate_in] below is the same code with callees that may throw. *)
Definition Simulate (T : Type) `{PoseType T} (gv : GraphAndValues)
    (params : RobustSolverParams) (output_folder : string) : Run unit :=
  let nfg := gv.1 in
  let values := gv.2 in
  emit (NewRobustSolver params);;
  let dim := getDim T in
  let noise := replicate dim zero in
  let init_noise := DiagonalSigmas noise in
  f ← graph_at nfg 0;
  current_key ← front f;
  first_value ← values_at T values current_key;
  let init_values : Values := <[current_key := to_value first_value]> ∅ in
  let init_factors : NonlinearFactorGraph := [] in
  prior_value ← values_at T values current_key;
  let prior_factor := PriorFactor current_key (to_value prior_value) init_noise in
  let nfg := (nfg ++ [prior_factor])%list in
  emit (Update nfg values);;
  emit (SaveData output_folder).

(** ** main (lines 57-169) *)

Section Driver.

(** [atof] of the C library. *)
Variable atof : string -> double.

(** What gtsam's reader makes of the file of a given name, [None] when it
    throws (no such file, malformed content). *)
Variable dataset : string -> option GraphAndValues.

(** The default-constructed [RobustSolverParams]. *)
Variable default_params : RobustSolverParams.

(** [gtsam::load2D(filename, model, maxIndex, addNoise, smart, noiseFormat)]. *)
Definition load2D (filename : string) (model : SharedNoiseModel) (maxIndex : nat)
    (addNoise smart : bool) (noiseFormat : NoiseFormat) : Run GraphAndValues :=
  emit (Load2D filename model maxIndex addNoise smart noiseFormat);;
  match dataset filename with
  | Some gv => mret gv
  | None => abort (LoadFailed filename)
  end.

(** Lines 84-85: [if (argc > 8) output_folder = argv[8];]. *)
Definition output_folder_of (argv : list string) : string :=
  if (8 <? length argv)%nat then default "" (argv !! 8) else "".

(** Lines 87-91: the flag [v] in [argv[9]]. *)
Definition verbose_of (argv : list string) : bool :=
  if (9 <? length argv)%nat then
    let flag := default "" (argv !! 9) in
    if flag =? "v" then true else false
  else false.

(** Lines 96-97. *)
Definition verbosity_of (argv : list string) : Verbosity :=
  if negb (verbose_of argv) then QUIET else VERBOSE.

(** Lines 67-82: the max-clique method named by [argv[7]]. *)
Definition max_clique_method_of (max_clique_method_str : string) : Run MaxCliqueMethod :=
  if max_clique_method_str =? "pmc_exact" then
    log INFO "Max Clique Solver: PMC (Exact)";;
    mret PMC_EXACT
  else if max_clique_method_str =? "pmc_heu" then
    log INFO "Max Clique Solver: PMC (Heuristic)";;
    mret PMC_HEU
  else if max_clique_method_str =? "clipper" then
    log INFO "Max Clique Solver: Clipper";;
    mret CLIPPER
  else
    log WARNING "Unsupported Max Clique Method (options are: pmc_exct, pmc_heu, clipper) ";;
    log INFO "Max Clique Solver: PMC (Heuristic)";;
    mret PMC_HEU.

(** Lines 100-159: the PCM mode and the GNC mode are written into [params].
    [pcm_t], [pcm_R] and [gnc_barcsq] are the locals of [main], which two of
    the branches overwrite before they use them. *)
Definition configure (pcm_str gnc_str : string) (pcm_t pcm_R gnc_barcsq : double)
    (max_clique_method : MaxCliqueMethod) (verbosity : Verbosity)
    (params : RobustSolverParams) : Run RobustSolverParams :=
  if pcm_str =? "NoPCM" then
    let pcm_t := DBL_MAX in
    let pcm_R := DBL_MAX in
    params ← invoke (setPcm2DParams pcm_t pcm_R verbosity) params;
    params ← invoke (setMaxCliqueMethod max_clique_method) params;
    if gnc_str =? "NoGNC" then
      log INFO "Options: NONE";;
      let gnc_barcsq := DBL_MAX in
      invoke (setGncInlierCostThresholds gnc_barcsq) params
    else if gnc_str =? "GNC" then
      log INFO "Options: GNC";;
      invoke (setGncInlierCostThresholds gnc_barcsq) params
    else
      log WARNING "Unsupported GNC option";;
      mret params
  else if pcm_str =? "PCM2dSimp" then
    params ← invoke (setPcmSimple2DParams pcm_t pcm_R verbosity) params;
    params ← invoke (setMaxCliqueMethod max_clique_method) params;
    if gnc_str =? "NoGNC" then
      log INFO "Options: PCM Simple";;
      let gnc_barcsq := DBL_MAX in
      invoke (setGncInlierCostThresholds gnc_barcsq) params
    else if gnc_str =? "GNC" then
      log INFO "Options: PCM Simple + GNC";;
      invoke (setGncInlierCostThresholds gnc_barcsq) params
    else
      log WARNING "Unsupported GNC option";;
      mret params
  else if pcm_str =? "PCM2dOrig" then
    params ← invoke (setPcm2DParams pcm_t pcm_R verbosity) params;
    params ← invoke (setMaxCliqueMethod max_clique_method) params;
    if gnc_str =? "NoGNC" then
      log INFO "Options: PCM Orig";;
      let gnc_barcsq := DBL_MAX in
      invoke (setGncInlierCostThresholds gnc_barcsq) params
    else if gnc_str =? "GNC" then
      log INFO "Options: PCM Orig + GNC";;
      invoke (setGncInlierCostThresholds gnc_barcsq) params
    else
      log WARNING "Unsupported GNC option";;
      mret params
  else
    log WARNING "Unsupported PCM option";;
    mret params.

(** Lines 161-168: the graph file is read and handed to [Simulate]. *)
Definition load_and_simulate (g2ofile : string) (params : RobustSolverParams)
    (output_folder : string) : Run unit :=
  graphNValues ← load2D g2ofile NullModel 0 false true NoiseFormatG2O;
  Simulate Pose2 graphNValues params output_folder.

(** [main], lines 57-169, with the three blocks above in their places. *)
Definition main (argv : list string) : Run unit :=
  pcm_str ← arg argv 1;
  gnc_str ← arg argv 2;
  g2ofile ← arg argv 3;
  pcm_t ← atof <$> arg argv 4;
  pcm_R ← atof <$> arg argv 5;
  gnc_barcsq ← atof <$> arg argv 6;
  max_clique_method_str ← arg argv 7;
  max_clique_method ← max_clique_method_of max_clique_method_str;
  let output_folder := output_folder_of argv in
  let params := default_params in
  params ← invoke (logOutput output_folder) params;
  let verbosity := verbosity_of argv in
  params ← configure pcm_str gnc_str pcm_t pcm_R gnc_barcsq
             max_clique_method verbosity params;
  load_and_simulate g2ofile params output_folder.

End Driver.

Global Arguments apply_call : simpl never.
Global Arguments Simulate : simpl never.
Global Arguments load2D : simpl never.
Global Arguments max_clique_method_of : simpl never.
Global Arguments configure : simpl never.
Global Arguments load_and_simulate : simpl never.
Global Arguments output_folder_of : simpl never.
Global Arguments verbosity_of : simpl never.

(** The prior factor that [Simulate] builds for key [k] and pose [x]
    (lines 40-50). *)
Definition prior_on (T : Type) `{PoseType T} (k : Key) (x : T) : NonlinearFactor :=
  PriorFactor k (to_value x) (DiagonalSigmas (replicate (getDim T) zero)).

(** ** Reading a trace *)

(** The events of the three collaborators. *)
Definition is_log (e : Event) : bool :=
  match e with Log _ _ => true | _ => false end.

Definition is_params_call (e : Event) : bool :=
  match e with ParamsSet _ => true | _ => false end.

Definition is_read (e : Event) : bool :=
  match e with Load2D _ _ _ _ _ _ | Load3D _ => true | _ => false end.

Definition is_solver_call (e : Event) : bool :=
  match e with
  | NewRobustSolver _ | Update _ _ | SaveData _ => true
  | _ => false
  end.

(** The setter calls made on [params], in order. *)
Definition params_calls (t : list Event) : list ParamsCall :=
  omap (fun e => match e with ParamsSet c => Some c | _ => None end) t.

(** The PCM setter calls among them. *)
Definition pcm_calls (t : list Event) : list ParamsCall :=
  omap (fun e =>
          match e with
          | ParamsSet (setPcm2DParams a b v) => Some (setPcm2DParams a b v)
          | ParamsSet (setPcmSimple2DParams a b v) => Some (setPcmSimple2DParams a b v)
          | _ => None
          end) t.

(** The arguments of the calls of [setGncInlierCostThresholds]. *)
Definition gnc_costs (t : list Event) : list double :=
  omap (fun e =>
          match e with
          | ParamsSet (setGncInlierCostThresholds cost) => Some cost
          | _ => None
          end) t.

(** The arguments of the calls of [setMaxCliqueMethod]. *)
Definition clique_methods (t : list Event) : list MaxCliqueMethod :=
  omap (fun e =>
          match e with
          | ParamsSet (setMaxCliqueMethod m) => Some m
          | _ => None
          end) t.

(** The dataset reads. *)
Definition reads (t : list Event) : list Event :=
  omap (fun e =>
          match e with
          | Load2D _ _ _ _ _ _ | Load3D _ => Some e
          | _ => None
          end) t.

(** The parameter objects that a solver was built from. *)
Definition solver_params (t : list Event) : list RobustSolverParams :=
  omap (fun e => match e with NewRobustSolver p => Some p | _ => None end) t.

Inductive SolverOp := OpUpdate | OpSaveData.

(** The calls on the solver object. *)
Definition solver_ops (t : list Event) : list SolverOp :=
  omap (fun e =>
          match e with
          | Update _ _ => Some OpUpdate
          | SaveData _ => Some OpSaveData
          | _ => None
          end) t.

(** The graphs and values handed to [update]. *)
Definition updates (t : list Event) : list (NonlinearFactorGraph * Values) :=
  omap (fun e => match e with Update g v => Some (g, v) | _ => None end) t.

(** The key that [Simulate] anchors and the pose it anchors it at (lines
    44-50): the first key of the first factor of the graph, and the value
    that [values] holds for it, read at type [T]. *)
Definition anchor (T : Type) `{PoseType T} (gv : GraphAndValues) : option (Key * T) :=
  f ← gv.1 !! 0%nat;
  k ← keys f !! 0%nat;
  v ← gv.2 !! k;
  x ← of_value v;
  Some (k, x).

(** The three PCM modes that [main] knows. *)
Definition recognized_pcm (pcm_str : string) : Prop :=
  pcm_str = "NoPCM" \/ pcm_str = "PCM2dSimp" \/ pcm_str = "PCM2dOrig".

(** A command line with the seven arguments that [main] reads without
    looking at [argc], and what follows them. *)
Definition command_line (argv0 pcm_str gnc_str g2ofile pcm_t pcm_R gnc_barcsq
    max_clique_method_str : string) (more : list string) : list string :=
  argv0 :: pcm_str :: gnc_str :: g2ofile :: pcm_t :: pcm_R :: gnc_barcsq
        :: max_clique_method_str :: more.

(** ** The Consistency Evaluator *)

(** Modelled from the spec: the threshold test of the Consistency Evaluator
    (design document, section 4.2), which belongs to the solver and is not
    part of the sources at hand.  A pair is consistent when its distance is
    below the threshold, and an effectively infinite threshold answers
    "consistent" without the distance being computed; the distance is
    therefore passed unevaluated. *)
Definition below_threshold (threshold : double) (distance : unit -> double) : bool :=
  if SFeqb threshold DBL_MAX then true else SFltb (distance tt) threshold.

(** Modelled from the spec: in the original PCM a loop closure is checked
    against odometry with one threshold of the pair (section 4.2); the
    evaluator is not part of the sources at hand. *)
Definition odometry_consistent (p : RobustSolverParams) (distance : unit -> double) : bool :=
  below_threshold (pcm_odomThreshold p) distance.

(** Modelled from the spec: two loop closures against each other, under the
    other threshold of the pair (section 4.2). *)
Definition loop_closures_consistent (p : RobustSolverParams) (distance : unit -> double) : bool :=
  below_threshold (pcm_lcThreshold p) distance.

(** ** Sample inputs *)

Definition one : double := S754_finite false 4503599627370496 (-52).
Definition half : double := S754_finite false 4503599627370496 (-53).

(** A stand-in for [atof] that knows three numerals. *)
Definition sample_atof (s : string) : double :=
  if s =? "1" then one
  else if s =? "0.5" then half
  else zero.

Definition origin : Pose2 := mkPose2 zero zero zero.
Definition step : Pose2 := mkPose2 one zero zero.

(** Two poses, one odometry edge. *)
Definition sample_graph : GraphAndValues :=
  ([BetweenFactor 0%N 1%N (VPose2 step) NullModel],
   <[0%N := VPose2 origin]> (<[1%N := VPose2 step]> ∅)).

(** A pose graph file without edges: its graph is empty. *)
Definition vertices_only : GraphAndValues :=
  ([], <[0%N := VPose2 origin]> ∅).

Definition sample_dataset (filename : string) : option GraphAndValues :=
  if filename =? "graph.g2o" then Some sample_graph
  else if filename =? "vertices.g2o" then Some vertices_only
  else None.

Definition sample_params : RobustSolverParams :=
  mkParams PCM3D UPDATE one one half half PMC_EXACT false one false "".

(** The second form of the usage comment (line 26), with a 3D graph. *)
Definition usage_3d : list string :=
  ["RpgoReadG2o"; "3d"; "sphere.g2o"; "0.5"; "0.5"; "1"; "pmc_heu"; "out"; "v"].

(** A command line for the file without edges. *)
Definition edgeless_run : list string :=
  ["Comparison"; "PCM2dOrig"; "GNC"; "vertices.g2o"; "0.5"; "0.5"; "1"; "pmc_exact"; "out"].



(** A stand-in for [atof] that also knows the numeral of the largest
    double. *)
Definition sample_atof_max (s : string) : double :=
  if s =? "1.7976931348623157e308" then DBL_MAX else sample_atof s.

(** A graph whose first factor has no key, a graph on keys that the values
    do not hold, and values that hold a 3D pose where [Simulate<Pose2>]
    reads a 2D one. *)
Definition keyless_graph : GraphAndValues :=
  ([OtherFactor []], <[0%N := VPose2 origin]> ∅).

Definition unknown_key_graph : GraphAndValues :=
  ([BetweenFactor 5%N 6%N (VPose2 step) NullModel], <[0%N := VPose2 origin]> ∅).

Definition pose3_graph : GraphAndValues :=
  ([BetweenFactor 0%N 1%N (VPose2 step) NullModel],
   <[0%N := VPose3 (mkPose3 [] [])]> ∅).

(** ** Simulate with callees that can fail *)

(** What [Simulate] leaves to its callees and to the C++ run time.  The
    driver catches nothing (lines 35-54), so a constructor of [RobustSolver],
    an [update] or a [saveData] that throws ends the run at that call; and
    [nfg[0]->front()] on a factor without keys (line 44) is undefined: it may
    yield some key, with which the run goes on, or end the run. *)
Record Callees := mkCallees {
  constructor_returns : RobustSolverParams -> bool;
  update_returns : NonlinearFactorGraph -> Values -> bool;
  saveData_returns : string -> bool;
  front_without_keys : Outcome Key
}.

(** A call on the solver: it is made, and returns or throws. *)
Definition call (e : Event) (returns : bool) (callee : string) : Run unit :=
  emit e;;
  if returns then mret tt else abort (CalleeThrew callee).

(** [f->front()] with the undefined case left to the environment. *)
Definition front_in (c : Callees) (f : NonlinearFactor) : Run Key :=
  match keys f with
  | k :: _ => mret k
  | [] => mkRun [] (front_without_keys c)
  end.

(** What [front()] yields on a factor: its first key, or what the
    environment makes of the undefined call. *)
Definition first_key (c : Callees) (f : NonlinearFactor) : Outcome Key :=
  match keys f !! 0%nat with
  | Some k => Done k
  | None => front_without_keys c
  end.

(** [Simulate] (lines 28-55) among callees [c]. *)
Definition Simulate_in (c : Callees) (T : Type) `{PoseType T} (gv : GraphAndValues)
    (params : RobustSolverParams) (output_folder : string) : Run unit :=
  let nfg := gv.1 in
  let values := gv.2 in
  call (NewRobustSolver params) (constructor_returns c params) "RobustSolver";;
  let dim := getDim T in
  let noise := replicate dim zero in
  let init_noise := DiagonalSigmas noise in
  f ← graph_at nfg 0;
  current_key ← front_in c f;
  first_value ← values_at T values current_key;
  let init_values : Values := <[current_key := to_value first_value]> ∅ in
  let init_factors : NonlinearFactorGraph := [] in
  prior_value ← values_at T values current_key;
  let prior_factor := PriorFactor current_key (to_value prior_value) init_noise in
  let nfg := (nfg ++ [prior_factor])%list in
  call (Update nfg values) (update_returns c nfg values) "update";;
  call (SaveData output_folder) (saveData_returns c output_folder) "saveData".

Global Arguments Simulate_in : simpl never.

(** The callees of [Simulate] above: every call returns, and a factor
    without keys ends the run. *)
Definition returning : Callees :=
  mkCallees (fun _ => true) (fun _ _ => true) (fun _ => true) (Aborted FactorWithoutKeys).

(** Modelled from the spec: the ingest check of the Measurement Store
    (design document, section 4.1), which belongs to the solver and is not
    part of the sources at hand: the endpoints of every factor must be nodes
    that the values hold. *)
Definition ingest_accepts (nfg : NonlinearFactorGraph) (values : Values) : bool :=
  forallb (fun f => forallb (fun k => bool_decide (is_Some (values !! k))) (keys f)) nfg.

(** A solver whose [update] fails on an unknown node, and a [front()] that
    yields key 0 on a factor without keys. *)
Definition strict_solver : Callees :=
  mkCallees (fun _ => true) ingest_accepts (fun _ => true) (Done 0%N).

(** The sample graph with one more edge, between poses that the values do
    not hold. *)
Definition dangling_graph : GraphAndValues :=
  ((sample_graph.1 ++ [BetweenFactor 5%N 6%N (VPose2 step) NullModel])%list,
   sample_graph.2).

(** * Properties *)

(** ** Traces *)

Lemma omap_none {A B : Type} (f : A -> option B) (P : A -> bool) (l : list A) :
  (forall a, P a = true -> f a = None) ->
  Forall (fun a => P a = true) l -> omap f l = [].
Proof.
  intros Hf Hl. induction Hl as [|a l Ha _ IH]; [reflexivity|].
  cbn. now rewrite (Hf a Ha).
Qed.

(** ** Simulate, case by case *)

Section SimulateFacts.
Context {T : Type} `{PoseType T}.
Variables (gv : GraphAndValues) (params : RobustSolverParams) (output_folder : string).

Lemma front_head (f : NonlinearFactor) :
  front f = match keys f !! 0%nat with
            | Some k => mret k
            | None => abort FactorWithoutKeys
            end.
Proof. unfold front. now destruct (keys f). Qed.

(** [Simulate] written out along the places where it can stop. *)
Lemma Simulate_unfold :
  Simulate T gv params output_folder =
    match gv.1 !! 0%nat with
    | None => mkRun [NewRobustSolver params] (Aborted (GraphIndexOutOfRange 0))
    | Some f =>
        match keys f !! 0%nat with
        | None => mkRun [NewRobustSolver params] (Aborted FactorWithoutKeys)
        | Some k =>
            match gv.2 !! k with
            | None => mkRun [NewRobustSolver params] (Aborted (ValuesKeyDoesNotExist k))
            | Some v =>
                match of_value v with
                | None => mkRun [NewRobustSolver params] (Aborted (ValuesIncorrectType k))
                | Some x =>
                    mkRun [NewRobustSolver params;
                           Update (gv.1 ++ [prior_on T k x])%list gv.2;
                           SaveData output_folder] (Done tt)
                end
            end
        end
    end.
Proof.
  unfold Simulate, graph_at, values_at.
  destruct (gv.1 !! 0%nat) as [f|]; [|reflexivity].
  cbn. rewrite front_head.
  destruct (keys f !! 0%nat) as [k|]; [|reflexivity].
  cbn. destruct (gv.2 !! k) as [v|]; [|reflexivity].
  cbn. destruct (of_value v) as [x|]; reflexivity.
Qed.

Lemma Simulate_anchored (f : NonlinearFactor) (k : Key) (v : Value) (x : T) :
  gv.1 !! 0%nat = Some f -> keys f !! 0%nat = Some k ->
  gv.2 !! k = Some v -> of_value v = Some x ->
  Simulate T gv params output_folder =
    mkRun [NewRobustSolver params;
           Update (gv.1 ++ [prior_on T k x])%list gv.2;
           SaveData output_folder] (Done tt).
Proof.
  intros Hf Hk Hv Hx. rewrite Simulate_unfold, Hf, Hk, Hv, Hx. reflexivity.
Qed.

Lemma Simulate_cases :
  (exists f k v x,
      gv.1 !! 0%nat = Some f /\ keys f !! 0%nat = Some k /\
      gv.2 !! k = Some v /\ of_value v = Some x /\
      Simulate T gv params output_folder =
        mkRun [NewRobustSolver params;
               Update (gv.1 ++ [prior_on T k x])%list gv.2;
               SaveData output_folder] (Done tt))
  \/ ((forall f k v x,
          gv.1 !! 0%nat = Some f -> keys f !! 0%nat = Some k ->
          gv.2 !! k = Some v -> of_value v = Some x -> False) /\
      exists why,
        Simulate T gv params output_folder =
          mkRun [NewRobustSolver params] (Aborted why)).
Proof.
  rewrite Simulate_unfold.
  destruct (gv.1 !! 0%nat) as [f|] eqn:Hf;
    [|right; split; [congruence | eauto]].
  destruct (keys f !! 0%nat) as [k|] eqn:Hk;
    [|right; split; [intros ? ? ? ? [= <-]; congruence | eauto]].
  destruct (gv.2 !! k) as [v|] eqn:Hv;
    [|right; split; [intros ? ? ? ? [= <-] ? ; congruence | eauto]].
  destruct (of_value v) as [x|] eqn:Hx;
    [|right; split; [intros ? ? ? ? [= <-] ? ? ; congruence | eauto]].
  left. exists f, k, v, x. auto.
Qed.

(** [Simulate] talks to the solver and to nothing else. *)
Lemma Simulate_solver_calls :
  Forall (fun e => is_solver_call e = true) (trace (Simulate T gv params output_folder)).
Proof.
  destruct Simulate_cases as [(f & k & v & x & _ & _ & _ & _ & ->)|(_ & why & ->)];
    cbn; repeat constructor.
Qed.

End SimulateFacts.

(** ** main, phase by phase *)

(** The four answers of the max-clique block. *)
Lemma max_clique_method_of_cases (s : string) :
  (s = "pmc_exact" /\
   max_clique_method_of s
   = mkRun [Log INFO "Max Clique Solver: PMC (Exact)"] (Done PMC_EXACT))
  \/ (s = "pmc_heu" /\
      max_clique_method_of s
      = mkRun [Log INFO "Max Clique Solver: PMC (Heuristic)"] (Done PMC_HEU))
  \/ (s = "clipper" /\
      max_clique_method_of s
      = mkRun [Log INFO "Max Clique Solver: Clipper"] (Done CLIPPER))
  \/ (s <> "pmc_exact" /\ s <> "pmc_heu" /\ s <> "clipper" /\
      max_clique_method_of s
      = mkRun [Log WARNING
                 "Unsupported Max Clique Method (options are: pmc_exct, pmc_heu, clipper) ";
               Log INFO "Max Clique Solver: PMC (Heuristic)"] (Done PMC_HEU)).
Proof.
  unfold max_clique_method_of.
  destruct (String.eqb_spec s "pmc_exact") as [-> | H1]; [left; auto|].
  destruct (String.eqb_spec s "pmc_heu") as [-> | H2]; [right; left; auto|].
  destruct (String.eqb_spec s "clipper") as [-> | H3]; [right; right; left; auto|].
  right; right; right. auto.
Qed.

Lemma max_clique_method_of_logs (s : string) :
  exists m logged,
    max_clique_method_of s = mkRun logged (Done m) /\
    Forall (fun e => is_log e = true) logged.
Proof.
  destruct (max_clique_method_of_cases s)
    as [(_ & ->)|[(_ & ->)|[(_ & ->)|(_ & _ & _ & ->)]]];
    do 2 eexists; split; try reflexivity; repeat constructor.
Qed.

(** The ten paths through the configuration block. *)
Section Configure.
Variables (pcm_t pcm_R gnc_barcsq : double) (m : MaxCliqueMethod) (v : Verbosity)
          (params : RobustSolverParams).

Lemma configure_NoPCM_NoGNC :
  configure "NoPCM" "NoGNC" pcm_t pcm_R gnc_barcsq m v params =
    mkRun [ParamsSet (setPcm2DParams DBL_MAX DBL_MAX v);
           ParamsSet (setMaxCliqueMethod m);
           Log INFO "Options: NONE";
           ParamsSet (setGncInlierCostThresholds DBL_MAX)]
          (Done (apply_call (setGncInlierCostThresholds DBL_MAX)
                   (apply_call (setMaxCliqueMethod m)
                      (apply_call (setPcm2DParams DBL_MAX DBL_MAX v) params)))).
Proof. reflexivity. Qed.

Lemma configure_NoPCM_GNC :
  configure "NoPCM" "GNC" pcm_t pcm_R gnc_barcsq m v params =
    mkRun [ParamsSet (setPcm2DParams DBL_MAX DBL_MAX v);
           ParamsSet (setMaxCliqueMethod m);
           Log INFO "Options: GNC";
           ParamsSet (setGncInlierCostThresholds gnc_barcsq)]
          (Done (apply_call (setGncInlierCostThresholds gnc_barcsq)
                   (apply_call (setMaxCliqueMethod m)
                      (apply_call (setPcm2DParams DBL_MAX DBL_MAX v) params)))).
Proof. reflexivity. Qed.

Lemma configure_NoPCM_other (gnc_str : string) :
  gnc_str <> "NoGNC" -> gnc_str <> "GNC" ->
  configure "NoPCM" gnc_str pcm_t pcm_R gnc_barcsq m v params =
    mkRun [ParamsSet (setPcm2DParams DBL_MAX DBL_MAX v);
           ParamsSet (setMaxCliqueMethod m);
           Log WARNING "Unsupported GNC option"]
          (Done (apply_call (setMaxCliqueMethod m)
                   (apply_call (setPcm2DParams DBL_MAX DBL_MAX v) params))).
Proof.
  intros H1 H2. apply String.eqb_neq in H1, H2.
  unfold configure. cbn. now rewrite H1, H2.
Qed.

Lemma configure_PCM2dSimp_NoGNC :
  configure "PCM2dSimp" "NoGNC" pcm_t pcm_R gnc_barcsq m v params =
    mkRun [ParamsSet (setPcmSimple2DParams pcm_t pcm_R v);
           ParamsSet (setMaxCliqueMethod m);
           Log INFO "Options: PCM Simple";
           ParamsSet (setGncInlierCostThresholds DBL_MAX)]
          (Done (apply_call (setGncInlierCostThresholds DBL_MAX)
                   (apply_call (setMaxCliqueMethod m)
                      (apply_call (setPcmSimple2DParams pcm_t pcm_R v) params)))).
Proof. reflexivity. Qed.

Lemma configure_PCM2dSimp_GNC :
  configure "PCM2dSimp" "GNC" pcm_t pcm_R gnc_barcsq m v params =
    mkRun [ParamsSet (setPcmSimple2DParams pcm_t pcm_R v);
           ParamsSet (setMaxCliqueMethod m);
           Log INFO "Options: PCM Simple + GNC";
           ParamsSet (setGncInlierCostThresholds gnc_barcsq)]
          (Done (apply_call (setGncInlierCostThresholds gnc_barcsq)
                   (apply_call (setMaxCliqueMethod m)
                      (apply_call (setPcmSimple2DParams pcm_t pcm_R v) params)))).
Proof. reflexivity. Qed.

Lemma configure_PCM2dSimp_other (gnc_str : string) :
  gnc_str <> "NoGNC" -> gnc_str <> "GNC" ->
  configure "PCM2dSimp" gnc_str pcm_t pcm_R gnc_barcsq m v params =
    mkRun [ParamsSet (setPcmSimple2DParams pcm_t pcm_R v);
           ParamsSet (setMaxCliqueMethod m);
           Log WARNING "Unsupported GNC option"]
          (Done (apply_call (setMaxCliqueMethod m)
                   (apply_call (setPcmSimple2DParams pcm_t pcm_R v) params))).
Proof.
  intros H1 H2. apply String.eqb_neq in H1, H2.
  unfold configure. cbn. now rewrite H1, H2.
Qed.

Lemma configure_PCM2dOrig_NoGNC :
  configure "PCM2dOrig" "NoGNC" pcm_t pcm_R gnc_barcsq m v params =
    mkRun [ParamsSet (setPcm2DParams pcm_t pcm_R v);
           ParamsSet (setMaxCliqueMethod m);
           Log INFO "Options: PCM Orig";
           ParamsSet (setGncInlierCostThresholds DBL_MAX)]
          (Done (apply_call (setGncInlierCostThresholds DBL_MAX)
                   (apply_call (setMaxCliqueMethod m)
                      (apply_call (setPcm2DParams pcm_t pcm_R v) params)))).
Proof. reflexivity. Qed.

Lemma configure_PCM2dOrig_GNC :
  configure "PCM2dOrig" "GNC" pcm_t pcm_R gnc_barcsq m v params =
    mkRun [ParamsSet (setPcm2DParams pcm_t pcm_R v);
           ParamsSet (setMaxCliqueMethod m);
           Log INFO "Options: PCM Orig + GNC";
           ParamsSet (setGncInlierCostThresholds gnc_barcsq)]
          (Done (apply_call (setGncInlierCostThresholds gnc_barcsq)
                   (apply_call (setMaxCliqueMethod m)
                      (apply_call (setPcm2DParams pcm_t pcm_R v) params)))).
Proof. reflexivity. Qed.

Lemma configure_PCM2dOrig_other (gnc_str : string) :
  gnc_str <> "NoGNC" -> gnc_str <> "GNC" ->
  configure "PCM2dOrig" gnc_str pcm_t pcm_R gnc_barcsq m v params =
    mkRun [ParamsSet (setPcm2DParams pcm_t pcm_R v);
           ParamsSet (setMaxCliqueMethod m);
           Log WARNING "Unsupported GNC option"]
          (Done (apply_call (setMaxCliqueMethod m)
                   (apply_call (setPcm2DParams pcm_t pcm_R v) params))).
Proof.
  intros H1 H2. apply String.eqb_neq in H1, H2.
  unfold configure. cbn. now rewrite H1, H2.
Qed.

Lemma configure_unsupported (pcm_str gnc_str : string) :
  pcm_str <> "NoPCM" -> pcm_str <> "PCM2dSimp" -> pcm_str <> "PCM2dOrig" ->
  configure pcm_str gnc_str pcm_t pcm_R gnc_barcsq m v params =
    mkRun [Log WARNING "Unsupported PCM option"] (Done params).
Proof.
  intros H1 H2 H3. apply String.eqb_neq in H1, H2, H3.
  unfold configure. now rewrite H1, H2, H3.
Qed.

(** The block never ends the run, and what it emits is a log line or a call
    on [params]. *)
Lemma configure_done (pcm_str gnc_str : string) :
  exists p,
    outcome (configure pcm_str gnc_str pcm_t pcm_R gnc_barcsq m v params) = Done p /\
    Forall (fun e => is_log e || is_params_call e = true)
           (trace (configure pcm_str gnc_str pcm_t pcm_R gnc_barcsq m v params)).
Proof.
  unfold configure.
  destruct (pcm_str =? "NoPCM"); [|destruct (pcm_str =? "PCM2dSimp");
                                    [|destruct (pcm_str =? "PCM2dOrig")]].
  all: try (destruct (gnc_str =? "NoGNC"); [|destruct (gnc_str =? "GNC")]).
  all: eexists; split; [reflexivity|]; cbn; repeat constructor.
Qed.

End Configure.

(** ** The claims about Simulate *)

Section SimulateClaims.
Context (T : Type) `{PoseType T}.
Variables (gv : GraphAndValues) (params : RobustSolverParams) (output_folder : string).

Lemma anchor_Some (k : Key) (x : T) :
  anchor T gv = Some (k, x) <->
  exists f v, gv.1 !! 0%nat = Some f /\ keys f !! 0%nat = Some k /\
              gv.2 !! k = Some v /\ of_value v = Some x.
Proof.
  unfold anchor. split.
  - destruct (gv.1 !! 0%nat) as [f|] eqn:Hf; [cbn|discriminate].
    destruct (keys f !! 0%nat) as [k'|] eqn:Hk; [cbn|discriminate].
    destruct (gv.2 !! k') as [v|] eqn:Hv; [cbn|discriminate].
    destruct (of_value v) as [x'|] eqn:Hx; [cbn|discriminate].
    intros [= <- <-]. exists f, v. auto.
  - intros (f & v & Hf & Hk & Hv & Hx).
    rewrite Hf. cbn. rewrite Hk. cbn. rewrite Hv. cbn. now rewrite Hx.
Qed.

(** [Simulate] in terms of its anchor. *)
Lemma Simulate_by_anchor :
  match anchor T gv with
  | Some (k, x) =>
      Simulate T gv params output_folder =
        mkRun [NewRobustSolver params;
               Update (gv.1 ++ [prior_on T k x])%list gv.2;
               SaveData output_folder] (Done tt)
  | None =>
      exists why,
        Simulate T gv params output_folder = mkRun [NewRobustSolver params] (Aborted why)
  end.
Proof.
  destruct (anchor T gv) as [[k x]|] eqn:Ha.
  - apply anchor_Some in Ha as (f & v & Hf & Hk & Hv & Hx).
    now apply Simulate_anchored with (f := f) (v := v).
  - destruct (Simulate_cases gv params output_folder)
      as [(f & k & v & x & Hf & Hk & Hv & Hx & _)|(_ & why & E)]; [|eauto].
    assert (anchor T gv = Some (k, x)) by (apply anchor_Some; exists f, v; auto). congruence.
Qed.

(** C9.  The graph that [Simulate] hands to [update] is the loaded graph
    followed by one prior factor: on the first key of the first loaded
    factor, at the value loaded for that key, under a diagonal noise model
    of [getDim] sigmas that are all zero; the values are the loaded ones; and
    there is no other call of [update].  Without such a key and value
    [update] is not called at all. *)
Theorem prior_anchors_first_key :
  updates (trace (Simulate T gv params output_folder))
  = match anchor T gv with
    | Some (k, x) =>
        [((gv.1 ++ [PriorFactor k (to_value x)
                      (DiagonalSigmas (replicate (getDim T) zero))])%list, gv.2)]
    | None => []
    end
  /\ length (replicate (getDim T) zero) = getDim T
  /\ Forall (fun sigma => sigma = zero) (replicate (getDim T) zero)
  /\ (forall k x,
        anchor T gv = Some (k, x) <->
        exists f v, gv.1 !! 0%nat = Some f /\ keys f !! 0%nat = Some k /\
                    gv.2 !! k = Some v /\ of_value v = Some x)
  /\ (forall k (pose : Pose2),
        anchor Pose2 gv = Some (k, pose) -> gv.2 !! k = Some (to_value pose)).
Proof.
  split; [|split; [|split; [|split]]].
  - pose proof Simulate_by_anchor as E.
    destruct (anchor T gv) as [[k x]|]; [now rewrite E|].
    destruct E as (why & ->). reflexivity.
  - apply length_replicate.
  - now apply Forall_replicate.
  - apply anchor_Some.
  - intros k pose Ha. unfold anchor in Ha.
    destruct (gv.1 !! 0%nat) as [f|]; [cbn in Ha|discriminate].
    destruct (keys f !! 0%nat) as [k'|]; [cbn in Ha|discriminate].
    destruct (gv.2 !! k') as [v|] eqn:Hv; [cbn in Ha|discriminate].
    destruct v as [q|q]; cbn in Ha; [|discriminate].
    now injection Ha as <- <-.
Qed.

End SimulateClaims.

(** ** Simulate among its callees *)

Section SimulateAmongCallees.
Context (c : Callees) (T : Type) `{PoseType T}.
Variables (gv : GraphAndValues) (params : RobustSolverParams) (output_folder : string).

Lemma front_in_first_key (f : NonlinearFactor) :
  front_in c f = mkRun [] (first_key c f).
Proof. unfold front_in, first_key. now destruct (keys f). Qed.

(** [Simulate_in] written out along the places where it can stop. *)
Lemma Simulate_in_unfold :
  Simulate_in c T gv params output_folder =
    if constructor_returns c params then
      match gv.1 !! 0%nat with
      | None => mkRun [NewRobustSolver params] (Aborted (GraphIndexOutOfRange 0))
      | Some f =>
          match first_key c f with
          | Aborted why => mkRun [NewRobustSolver params] (Aborted why)
          | Done k =>
              match gv.2 !! k with
              | None => mkRun [NewRobustSolver params] (Aborted (ValuesKeyDoesNotExist k))
              | Some v =>
                  match of_value v with
                  | None =>
                      mkRun [NewRobustSolver params] (Aborted (ValuesIncorrectType k))
                  | Some x =>
                      if update_returns c (gv.1 ++ [prior_on T k x])%list gv.2 then
                        mkRun [NewRobustSolver params;
                               Update (gv.1 ++ [prior_on T k x])%list gv.2;
                               SaveData output_folder]
                              (if saveData_returns c output_folder then Done tt
                               else Aborted (CalleeThrew "saveData"))
                      else
                        mkRun [NewRobustSolver params;
                               Update (gv.1 ++ [prior_on T k x])%list gv.2]
                              (Aborted (CalleeThrew "update"))
                  end
              end
          end
      end
    else mkRun [NewRobustSolver params] (Aborted (CalleeThrew "RobustSolver")).
Proof.
  unfold Simulate_in, call, graph_at, values_at.
  destruct (constructor_returns c params); [|reflexivity].
  destruct (gv.1 !! 0%nat) as [f|]; [|reflexivity].
  cbn. rewrite front_in_first_key.
  destruct (first_key c f) as [k|why]; [|reflexivity].
  cbn. destruct (gv.2 !! k) as [v|]; [|reflexivity].
  cbn. destruct (of_value v) as [x|]; [|reflexivity].
  cbn. fold (prior_on T k x).
  destruct (update_returns c (gv.1 ++ [prior_on T k x])%list gv.2); [|reflexivity].
  cbn. destruct (saveData_returns c output_folder); reflexivity.
Qed.

(** C7, as the driver has it.  In a run of [Simulate] on a graph whose
    first factor has a first key for which [values] holds a pose of type
    [T], and in which the constructor of the solver and [update] return,
    [update] is called once and then [saveData] once, on the graph with its
    prior.  In every run, whatever the graph and the callees do, the calls
    on the solver are none, one [update], or one [update] followed by one
    [saveData]; and when [saveData] is called, the [update] before it has
    returned. *)
Theorem update_then_save_when_anchored :
  let r := Simulate_in c T gv params output_folder in
  (forall f k v x,
      gv.1 !! 0%nat = Some f -> keys f !! 0%nat = Some k ->
      gv.2 !! k = Some v -> of_value v = Some x ->
      constructor_returns c params = true ->
      update_returns c (gv.1 ++ [prior_on T k x])%list gv.2 = true ->
      solver_ops (trace r) = [OpUpdate; OpSaveData]
      /\ updates (trace r) = [((gv.1 ++ [prior_on T k x])%list, gv.2)]
      /\ (saveData_returns c output_folder = true -> outcome r = Done tt))
  /\ (solver_ops (trace r) = []
      \/ solver_ops (trace r) = [OpUpdate]
      \/ solver_ops (trace r) = [OpUpdate; OpSaveData])
  /\ (solver_ops (trace r) = [OpUpdate; OpSaveData] ->
      exists g, updates (trace r) = [(g, gv.2)] /\ update_returns c g gv.2 = true).
Proof.
  intros r. subst r. rewrite Simulate_in_unfold. split; [|split].
  - intros f k v x Hf Hk Hv Hx Hctor Hupd.
    unfold first_key. rewrite Hctor, Hf, Hk, Hv, Hx, Hupd. cbn.
    repeat split. now intros ->.
  - destruct (constructor_returns c params); [|now left].
    destruct (gv.1 !! 0%nat) as [f|]; [|now left].
    destruct (first_key c f) as [k|why]; [|now left].
    destruct (gv.2 !! k) as [v|]; [|now left].
    destruct (of_value v) as [x|]; [|now left].
    destruct (update_returns c _ gv.2); [right; right | right; left]; reflexivity.
  - destruct (constructor_returns c params); [|discriminate].
    destruct (gv.1 !! 0%nat) as [f|]; [|discriminate].
    destruct (first_key c f) as [k|why]; [|discriminate].
    destruct (gv.2 !! k) as [v|]; [|discriminate].
    destruct (of_value v) as [x|]; [|discriminate].
    destruct (update_returns c _ gv.2) eqn:Hupd; [|discriminate].
    intros _. eexists. split; [reflexivity | exact Hupd].
Qed.

End SimulateAmongCallees.

(** [Simulate] is [Simulate_in] among callees that return. *)
Lemma Simulate_in_returning (T : Type) `{PoseType T} (gv : GraphAndValues)
    (params : RobustSolverParams) (output_folder : string) :
  Simulate_in returning T gv params output_folder = Simulate T gv params output_folder.
Proof.
  rewrite Simulate_in_unfold, Simulate_unfold. unfold first_key. cbn.
  destruct (gv.1 !! 0%nat) as [f|]; [|reflexivity].
  destruct (keys f !! 0%nat) as [k|]; [|reflexivity].
  destruct (gv.2 !! k) as [v|]; [|reflexivity].
  destruct (of_value v) as [x|]; reflexivity.
Qed.

(** On a first factor without keys the run does what the undefined
    [front()] makes it do: with a stray key that the values hold it goes on
    to [update] and [saveData]. *)
Lemma Simulate_in_stray_key (c : Callees) (rest : NonlinearFactorGraph) (values : Values)
    (params : RobustSolverParams) (output_folder : string) (k : Key) (pose : Pose2) :
  front_without_keys c = Done k -> values !! k = Some (VPose2 pose) ->
  constructor_returns c params = true ->
  update_returns c ((OtherFactor [] :: rest) ++ [prior_on Pose2 k pose])%list values = true ->
  solver_ops (trace (Simulate_in c Pose2 (OtherFactor [] :: rest, values) params
                       output_folder))
  = [OpUpdate; OpSaveData].
Proof.
  intros Hfront Hv Hctor Hupd. rewrite Simulate_in_unfold. unfold first_key. cbn.
  rewrite Hctor, Hfront, Hv. cbn. cbn in Hupd. rewrite Hupd. reflexivity.
Qed.

(** The three phases of [main] put together. *)
Section MainFacts.
Variable atof : string -> double.
Variable dataset : string -> option GraphAndValues.
Variable default_params : RobustSolverParams.

Lemma load_and_simulate_unfold (g2ofile : string) (p : RobustSolverParams) (out : string) :
  load_and_simulate dataset g2ofile p out =
    match dataset g2ofile with
    | Some gv =>
        mkRun (Load2D g2ofile NullModel 0 false true NoiseFormatG2O
                 :: trace (Simulate Pose2 gv p out))
              (outcome (Simulate Pose2 gv p out))
    | None =>
        mkRun [Load2D g2ofile NullModel 0 false true NoiseFormatG2O]
              (Aborted (LoadFailed g2ofile))
    end.
Proof. unfold load_and_simulate, load2D. now destruct (dataset g2ofile). Qed.

Lemma load_and_simulate_events (g2ofile : string) (p : RobustSolverParams) (out : string) :
  Forall (fun e => is_read e || is_solver_call e = true)
         (trace (load_and_simulate dataset g2ofile p out)).
Proof.
  rewrite load_and_simulate_unfold. destruct (dataset g2ofile) as [gv|]; cbn.
  - constructor; [reflexivity|].
    eapply Forall_impl; [apply Simulate_solver_calls|].
    cbn. intros e ->. apply orb_true_r.
  - repeat constructor.
Qed.

Lemma load_and_simulate_reads (g2ofile : string) (p : RobustSolverParams) (out : string) :
  reads (trace (load_and_simulate dataset g2ofile p out))
  = [Load2D g2ofile NullModel 0 false true NoiseFormatG2O].
Proof.
  rewrite load_and_simulate_unfold. destruct (dataset g2ofile) as [gv|]; [|reflexivity].
  cbn. f_equal. apply (omap_none _ is_solver_call); [|apply Simulate_solver_calls].
  now intros [].
Qed.

Lemma load_and_simulate_solver_params (g2ofile : string) (p : RobustSolverParams) (out : string) :
  solver_params (trace (load_and_simulate dataset g2ofile p out))
  = match dataset g2ofile with Some _ => [p] | None => [] end.
Proof.
  rewrite load_and_simulate_unfold. destruct (dataset g2ofile) as [gv|]; [|reflexivity].
  cbn. destruct (Simulate_cases (T:=Pose2) gv p out)
    as [(f & k & v & x & _ & _ & _ & _ & ->)|(_ & why & ->)]; reflexivity.
Qed.

(** A command line with its seven arguments passes the reads of [argv], and
    [main] is its three blocks in a row. *)
Lemma main_phases
    (argv0 pcm_str gnc_str g2ofile pcm_t pcm_R gnc_barcsq mcm : string) (more : list string)
    (m : MaxCliqueMethod) (logged cfg : list Event) (p : RobustSolverParams) :
  let argv := command_line argv0 pcm_str gnc_str g2ofile pcm_t pcm_R gnc_barcsq mcm more in
  max_clique_method_of mcm = mkRun logged (Done m) ->
  configure pcm_str gnc_str (atof pcm_t) (atof pcm_R) (atof gnc_barcsq) m
            (verbosity_of argv)
            (apply_call (logOutput (output_folder_of argv)) default_params)
    = mkRun cfg (Done p) ->
  main atof dataset default_params argv =
    mkRun (logged ++ ParamsSet (logOutput (output_folder_of argv)) :: cfg
             ++ trace (load_and_simulate dataset g2ofile p (output_folder_of argv)))%list
          (outcome (load_and_simulate dataset g2ofile p (output_folder_of argv))).
Proof.
  intros argv Hm Hcfg. subst argv. unfold command_line in *. unfold main. cbn.
  rewrite Hm. cbn. rewrite Hcfg. cbn. reflexivity.
Qed.

(** What a reading [f] of the trace finds in a run of [main], phase by
    phase. *)
Lemma main_observed {B : Type} (f : Event -> option B)
    (argv0 pcm_str gnc_str g2ofile pcm_t pcm_R gnc_barcsq mcm : string) (more : list string)
    (m : MaxCliqueMethod) (logged cfg : list Event) (p : RobustSolverParams) :
  let argv := command_line argv0 pcm_str gnc_str g2ofile pcm_t pcm_R gnc_barcsq mcm more in
  max_clique_method_of mcm = mkRun logged (Done m) ->
  configure pcm_str gnc_str (atof pcm_t) (atof pcm_R) (atof gnc_barcsq) m
            (verbosity_of argv)
            (apply_call (logOutput (output_folder_of argv)) default_params)
    = mkRun cfg (Done p) ->
  omap f (trace (main atof dataset default_params argv)) =
    (omap f logged ++ omap f (ParamsSet (logOutput (output_folder_of argv)) :: cfg)
       ++ omap f (trace (load_and_simulate dataset g2ofile p (output_folder_of argv))))%list.
Proof.
  intros argv Hm Hcfg. subst argv.
  rewrite (main_phases _ _ _ _ _ _ _ _ _ _ _ _ _ Hm Hcfg). cbn [trace].
  rewrite omap_app. f_equal. rewrite app_comm_cons. apply omap_app.
Qed.

End MainFacts.

(** ** What a run of main shows *)

Section Observed.
Variable atof : string -> double.
Variable dataset : string -> option GraphAndValues.
Variable default_params : RobustSolverParams.
Context {argv0 pcm_str gnc_str g2ofile pcm_t pcm_R gnc_barcsq mcm : string}
        {more : list string} {m : MaxCliqueMethod} {logged cfg : list Event}
        {p : RobustSolverParams}.

Local Abbreviation argv :=
  (command_line argv0 pcm_str gnc_str g2ofile pcm_t pcm_R gnc_barcsq mcm more).

Hypothesis Hm : max_clique_method_of mcm = mkRun logged (Done m).
Hypothesis Hlog : Forall (fun e => is_log e = true) logged.
Hypothesis Hcfg :
  configure pcm_str gnc_str (atof pcm_t) (atof pcm_R) (atof gnc_barcsq) m
            (verbosity_of argv)
            (apply_call (logOutput (output_folder_of argv)) default_params)
  = mkRun cfg (Done p).

Lemma cfg_events : Forall (fun e => is_log e || is_params_call e = true) cfg.
Proof using Hcfg.
  destruct (configure_done (atof pcm_t) (atof pcm_R) (atof gnc_barcsq) m
              (verbosity_of argv)
              (apply_call (logOutput (output_folder_of argv)) default_params)
              pcm_str gnc_str) as (p' & _ & Hev).
  now rewrite Hcfg in Hev.
Qed.

(** A reading that skips log lines, reads and solver calls sees the calls on
    [params] only. *)
Lemma main_calls_observed {B : Type} (f : Event -> option B) :
  (forall e, is_log e || is_read e || is_solver_call e = true -> f e = None) ->
  omap f (trace (main atof dataset default_params argv))
  = omap f (ParamsSet (logOutput (output_folder_of argv)) :: cfg).
Proof using Hm Hlog Hcfg.
  intros Hf.
  rewrite (main_observed _ _ _ f _ _ _ _ _ _ _ _ _ _ _ _ _ Hm Hcfg).
  rewrite (omap_none f is_log logged)
    by (try exact Hlog; intros e He; apply Hf; now rewrite He).
  rewrite (omap_none f (fun e => is_read e || is_solver_call e)
             (trace (load_and_simulate _ _ _ _)))
    by (try apply load_and_simulate_events;
        intros e He; apply Hf; rewrite <- orb_assoc, He; apply orb_true_r).
  cbn [app]. apply app_nil_r.
Qed.

Lemma main_params_calls :
  params_calls (trace (main atof dataset default_params argv))
  = logOutput (output_folder_of argv) :: params_calls cfg.
Proof using Hm Hlog Hcfg. unfold params_calls. rewrite main_calls_observed; [reflexivity | now intros []]. Qed.

Lemma main_pcm_calls :
  pcm_calls (trace (main atof dataset default_params argv)) = pcm_calls cfg.
Proof using Hm Hlog Hcfg. unfold pcm_calls. rewrite main_calls_observed; [reflexivity | now intros []]. Qed.

Lemma main_gnc_costs :
  gnc_costs (trace (main atof dataset default_params argv)) = gnc_costs cfg.
Proof using Hm Hlog Hcfg. unfold gnc_costs. rewrite main_calls_observed; [reflexivity | now intros []]. Qed.

Lemma main_clique_methods :
  clique_methods (trace (main atof dataset default_params argv)) = clique_methods cfg.
Proof using Hm Hlog Hcfg. unfold clique_methods. rewrite main_calls_observed; [reflexivity | now intros []]. Qed.

(** The one read of a run is the 2D read of [argv[3]]. *)
Lemma main_reads :
  reads (trace (main atof dataset default_params argv))
  = [Load2D g2ofile NullModel 0 false true NoiseFormatG2O].
Proof using Hm Hlog Hcfg.
  unfold reads.
  rewrite (main_observed _ _ _ _ _ _ _ _ _ _ _ _ _ _ _ _ _ Hm Hcfg).
  rewrite (omap_none _ is_log logged);
    [|now intros []|exact Hlog].
  rewrite (omap_none _ (fun e => is_log e || is_params_call e) (_ :: cfg));
    [|now intros []|constructor; [reflexivity | apply cfg_events]].
  apply load_and_simulate_reads.
Qed.

(** The solver is built, when the file can be read, from the parameters that
    the configuration block returns. *)
Lemma main_solver_params :
  solver_params (trace (main atof dataset default_params argv))
  = match dataset g2ofile with Some _ => [p] | None => [] end.
Proof using Hm Hlog Hcfg.
  unfold solver_params.
  rewrite (main_observed _ _ _ _ _ _ _ _ _ _ _ _ _ _ _ _ _ Hm Hcfg).
  rewrite (omap_none _ is_log logged);
    [|now intros []|exact Hlog].
  rewrite (omap_none _ (fun e => is_log e || is_params_call e) (_ :: cfg));
    [|now intros []|constructor; [reflexivity | apply cfg_events]].
  apply load_and_simulate_solver_params.
Qed.

(** The solver is updated as [Simulate] updates it. *)
Lemma main_updates :
  updates (trace (main atof dataset default_params argv))
  = match dataset g2ofile with
    | Some gv => updates (trace (Simulate Pose2 gv p (output_folder_of argv)))
    | None => []
    end.
Proof using Hm Hlog Hcfg.
  unfold updates.
  rewrite (main_observed _ _ _ _ _ _ _ _ _ _ _ _ _ _ _ _ _ Hm Hcfg).
  rewrite (omap_none _ is_log logged);
    [|now intros []|exact Hlog].
  rewrite (omap_none _ (fun e => is_log e || is_params_call e) (_ :: cfg));
    [|now intros []|constructor; [reflexivity | apply cfg_events]].
  rewrite load_and_simulate_unfold. now destruct (dataset g2ofile).
Qed.

End Observed.

(** ** The claims about main *)

Lemma run_eta {A : Type} (r : Run A) (a : A) :
  outcome r = Done a -> r = mkRun (trace r) (Done a).
Proof. destruct r as [t o]. cbn. now intros ->. Qed.

Lemma gnc_cases (gnc_str : string) :
  gnc_str = "NoGNC" \/ gnc_str = "GNC" \/ (gnc_str <> "NoGNC" /\ gnc_str <> "GNC").
Proof.
  destruct (String.eqb_spec gnc_str "NoGNC"); [auto|].
  destruct (String.eqb_spec gnc_str "GNC"); auto.
Qed.

(** The run of the first block, and the run of the configuration block of
    the [main] in the goal, by name. *)
Ltac enter_main m logged Hm Hlog p Hcfg :=
  match goal with
  | |- context [main ?atof _ ?dp
                  (command_line ?a0 ?pcm ?gnc ?file ?t ?R ?b ?mcm ?more)] =>
      destruct (max_clique_method_of_logs mcm) as (m & logged & Hm & Hlog);
      destruct (configure_done (atof t) (atof R) (atof b) m
                  (verbosity_of (command_line a0 pcm gnc file t R b mcm more))
                  (apply_call
                     (logOutput
                        (output_folder_of (command_line a0 pcm gnc file t R b mcm more)))
                     dp) pcm gnc) as (p & Hcfg & _);
      apply run_eta in Hcfg
  end.

(** The equation of the path that the configuration block takes. *)
Ltac configure_path :=
  first
    [ rewrite configure_NoPCM_NoGNC in *
    | rewrite configure_NoPCM_GNC in *
    | rewrite configure_PCM2dSimp_NoGNC in *
    | rewrite configure_PCM2dSimp_GNC in *
    | rewrite configure_PCM2dOrig_NoGNC in *
    | rewrite configure_PCM2dOrig_GNC in *
    | rewrite configure_NoPCM_other in * by assumption
    | rewrite configure_PCM2dSimp_other in * by assumption
    | rewrite configure_PCM2dOrig_other in * by assumption
    | rewrite configure_unsupported in * by assumption ].

Section MainClaims.
Variable atof : string -> double.
Variable dataset : string -> option GraphAndValues.
Variable default_params : RobustSolverParams.

(** C1. Every max-clique token other than [pmc_exact], [pmc_heu] and
    [clipper] is answered by a warning and the heuristic method [PMC_HEU],
    and the run is not ended; the three known tokens select [PMC_EXACT],
    [PMC_HEU] and [CLIPPER].  In each case [main] goes on with [logOutput],
    reaches the read of the graph file, and in the three PCM modes hands the
    selected method, and nothing else, to [setMaxCliqueMethod]. *)
Theorem max_clique_method_token
    (argv0 pcm_str gnc_str g2ofile pcm_t pcm_R gnc_barcsq mcm : string) (more : list string) :
  let argv := command_line argv0 pcm_str gnc_str g2ofile pcm_t pcm_R gnc_barcsq mcm more in
  let t := trace (main atof dataset default_params argv) in
  max_clique_method_of "pmc_exact"
    = mkRun [Log INFO "Max Clique Solver: PMC (Exact)"] (Done PMC_EXACT)
  /\ max_clique_method_of "pmc_heu"
    = mkRun [Log INFO "Max Clique Solver: PMC (Heuristic)"] (Done PMC_HEU)
  /\ max_clique_method_of "clipper"
    = mkRun [Log INFO "Max Clique Solver: Clipper"] (Done CLIPPER)
  /\ (mcm <> "pmc_exact" -> mcm <> "pmc_heu" -> mcm <> "clipper" ->
      max_clique_method_of mcm
      = mkRun [Log WARNING
                 "Unsupported Max Clique Method (options are: pmc_exct, pmc_heu, clipper) ";
               Log INFO "Max Clique Solver: PMC (Heuristic)"] (Done PMC_HEU))
  /\ exists m,
      outcome (max_clique_method_of mcm) = Done m
      /\ (trace (max_clique_method_of mcm)
            ++ [ParamsSet (logOutput (output_folder_of argv))])%list `prefix_of` t
      /\ reads t = [Load2D g2ofile NullModel 0 false true NoiseFormatG2O]
      /\ (recognized_pcm pcm_str -> clique_methods t = [m]).
Proof.
  intros argv t. subst t argv. repeat split; try reflexivity.
  - intros H1 H2 H3.
    destruct (max_clique_method_of_cases mcm)
      as [(? & _)|[(? & _)|[(? & _)|(_ & _ & _ & E)]]]; congruence.
  - enter_main m logged Hm Hlog p Hcfg. exists m. rewrite Hm. cbn [trace outcome].
    split; [reflexivity|]. split; [|split].
    + rewrite (main_phases _ _ _ _ _ _ _ _ _ _ _ _ _ _ _ _ Hm Hcfg). cbn [trace].
      eexists. rewrite <- app_assoc. reflexivity.
    + apply (main_reads atof dataset default_params Hm Hlog Hcfg).
    + intros Hpcm.
      rewrite (main_clique_methods atof dataset default_params Hm Hlog Hcfg).
      destruct Hpcm as [-> | [-> | ->]];
        destruct (gnc_cases gnc_str) as [-> | [-> | [? ?]]];
        configure_path; reflexivity.
Qed.

(** C2. In the mode [NoPCM] both PCM thresholds are the largest double when
    they reach the solver parameters: the one PCM setter call of the run is
    [setPcm2DParams DBL_MAX DBL_MAX], it is the first call after [logOutput],
    it is the same whatever [argv[4]] and [argv[5]] hold, and the parameters
    that the solver is built from carry the two values.  Under them the
    threshold test of the Consistency Evaluator accepts every pair, whatever
    its distance. *)
Theorem nopcm_thresholds_are_max
    (argv0 gnc_str g2ofile pcm_t pcm_R gnc_barcsq mcm : string) (more : list string) :
  let argv t R := command_line argv0 "NoPCM" gnc_str g2ofile t R gnc_barcsq mcm more in
  let t := trace (main atof dataset default_params (argv pcm_t pcm_R)) in
  pcm_calls t = [setPcm2DParams DBL_MAX DBL_MAX (verbosity_of (argv pcm_t pcm_R))]
  /\ (forall pcm_t' pcm_R',
        pcm_calls (trace (main atof dataset default_params (argv pcm_t' pcm_R')))
        = pcm_calls t)
  /\ (trace (max_clique_method_of mcm)
        ++ [ParamsSet (logOutput (output_folder_of (argv pcm_t pcm_R)));
            ParamsSet (setPcm2DParams DBL_MAX DBL_MAX (verbosity_of (argv pcm_t pcm_R)))])%list
       `prefix_of` t
  /\ length (solver_params t) = match dataset g2ofile with Some _ => 1%nat | None => 0%nat end
  /\ Forall (fun p =>
               pcm_odomThreshold p = DBL_MAX /\ pcm_lcThreshold p = DBL_MAX
               /\ forall distance,
                   odometry_consistent p distance = true
                   /\ loop_closures_consistent p distance = true)
            (solver_params t).
Proof.
  intros argv t. subst t argv. cbn beta.
  assert (Hcalls : forall t' R',
             pcm_calls (trace (main atof dataset default_params
               (command_line argv0 "NoPCM" gnc_str g2ofile t' R' gnc_barcsq mcm more)))
             = [setPcm2DParams DBL_MAX DBL_MAX
                  (verbosity_of (command_line argv0 "NoPCM" gnc_str g2ofile pcm_t pcm_R
                                   gnc_barcsq mcm more))]).
  { intros t' R'. enter_main m logged Hm Hlog p Hcfg.
    rewrite (main_pcm_calls atof dataset default_params Hm Hlog Hcfg).
    destruct (gnc_cases gnc_str) as [-> | [-> | [? ?]]]; configure_path;
      injection Hcfg as <-; reflexivity. }
  split; [apply Hcalls|]. split; [intros; now rewrite !Hcalls|].
  enter_main m logged Hm Hlog p Hcfg.
  rewrite (main_solver_params atof dataset default_params Hm Hlog Hcfg).
  rewrite (main_phases _ _ _ _ _ _ _ _ _ _ _ _ _ _ _ _ Hm Hcfg), Hm. cbn [trace].
  destruct (gnc_cases gnc_str) as [-> | [-> | [? ?]]]; configure_path;
    injection Hcfg as <-.
  all: split; [eexists; rewrite <- app_assoc; reflexivity|].
  all: destruct (dataset g2ofile); split; try reflexivity; repeat constructor.
Qed.

(** C3. In each of the three PCM modes, [NoGNC] hands the largest double to
    [setGncInlierCostThresholds], whatever [argv[6]] holds, and [GNC] hands
    over the number read from [argv[6]]; in both cases this is the one call
    of the setter, and the threshold of the parameters that the solver is
    built from. *)
Theorem gnc_threshold_passed
    (argv0 pcm_str g2ofile pcm_t pcm_R gnc_barcsq mcm : string) (more : list string) :
  recognized_pcm pcm_str ->
  let run gnc_str :=
    trace (main atof dataset default_params
             (command_line argv0 pcm_str gnc_str g2ofile pcm_t pcm_R gnc_barcsq mcm more)) in
  gnc_costs (run "NoGNC") = [DBL_MAX]
  /\ gnc_costs (run "GNC") = [atof gnc_barcsq]
  /\ length (solver_params (run "NoGNC"))
     = match dataset g2ofile with Some _ => 1%nat | None => 0%nat end
  /\ length (solver_params (run "GNC"))
     = match dataset g2ofile with Some _ => 1%nat | None => 0%nat end
  /\ Forall (fun p => use_gnc p = true /\ gnc_inlier_cost p = DBL_MAX)
            (solver_params (run "NoGNC"))
  /\ Forall (fun p => use_gnc p = true /\ gnc_inlier_cost p = atof gnc_barcsq)
            (solver_params (run "GNC")).
Proof.
  intros Hpcm run. subst run. cbn beta.
  destruct Hpcm as [-> | [-> | ->]]; repeat split.
  all: enter_main m logged Hm Hlog p Hcfg.
  all: first [ rewrite (main_gnc_costs atof dataset default_params Hm Hlog Hcfg)
             | rewrite (main_solver_params atof dataset default_params Hm Hlog Hcfg) ].
  all: configure_path; injection Hcfg as <-.
  all: try reflexivity.
  all: destruct (dataset g2ofile); repeat constructor.
Qed.


(** C4. In the mode [PCM2dOrig] the numbers of [argv[4]] and [argv[5]] go
    through [setPcm2DParams], the setter of the mode [NoPCM], and become the
    odometry threshold and the loop-closure threshold, the translation and
    rotation thresholds staying as constructed; in the mode [PCM2dSimp] the
    same two numbers go through [setPcmSimple2DParams] and become the
    translation and the rotation threshold. *)
Theorem pcm2dorig_threshold_roles
    (argv0 gnc_str g2ofile pcm_t pcm_R gnc_barcsq mcm : string) (more : list string) :
  let argv pcm_str :=
    command_line argv0 pcm_str gnc_str g2ofile pcm_t pcm_R gnc_barcsq mcm more in
  let run pcm_str := trace (main atof dataset default_params (argv pcm_str)) in
  pcm_calls (run "PCM2dOrig")
    = [setPcm2DParams (atof pcm_t) (atof pcm_R) (verbosity_of (argv "PCM2dOrig"))]
  /\ pcm_calls (run "NoPCM")
    = [setPcm2DParams DBL_MAX DBL_MAX (verbosity_of (argv "NoPCM"))]
  /\ pcm_calls (run "PCM2dSimp")
    = [setPcmSimple2DParams (atof pcm_t) (atof pcm_R) (verbosity_of (argv "PCM2dSimp"))]
  /\ length (solver_params (run "PCM2dOrig")) = match dataset g2ofile with Some _ => 1%nat | None => 0%nat end
  /\ Forall (fun p =>
               outlierRemovalMethod p = PCM2D
               /\ pcm_odomThreshold p = atof pcm_t
               /\ pcm_lcThreshold p = atof pcm_R
               /\ pcmDist_transThreshold p = pcmDist_transThreshold default_params
               /\ pcmDist_rotThreshold p = pcmDist_rotThreshold default_params)
            (solver_params (run "PCM2dOrig"))
  /\ Forall (fun p =>
               outlierRemovalMethod p = PCM_Simple2D
               /\ pcmDist_transThreshold p = atof pcm_t
               /\ pcmDist_rotThreshold p = atof pcm_R
               /\ pcm_odomThreshold p = pcm_odomThreshold default_params
               /\ pcm_lcThreshold p = pcm_lcThreshold default_params)
            (solver_params (run "PCM2dSimp")).
Proof.
  intros argv run. subst run argv. cbn beta. repeat split.
  all: enter_main m logged Hm Hlog p Hcfg.
  all: first [ rewrite (main_pcm_calls atof dataset default_params Hm Hlog Hcfg)
             | rewrite (main_solver_params atof dataset default_params Hm Hlog Hcfg) ].
  all: destruct (gnc_cases gnc_str) as [-> | [-> | [? ?]]]; configure_path;
    injection Hcfg as <-.
  all: try reflexivity.
  all: destruct (dataset g2ofile); repeat constructor.
Qed.

(** C5. A PCM token other than [NoPCM], [PCM2dSimp] and [PCM2dOrig] does not
    end the run: after the max-clique block and [logOutput], [main] logs the
    warning, makes no further call on the parameters, which stay the
    default-constructed ones, reads the graph file and hands the graph to
    [Simulate]. *)
Theorem unsupported_pcm_still_solves
    (argv0 pcm_str gnc_str g2ofile pcm_t pcm_R gnc_barcsq mcm : string) (more : list string) :
  pcm_str <> "NoPCM" -> pcm_str <> "PCM2dSimp" -> pcm_str <> "PCM2dOrig" ->
  let argv := command_line argv0 pcm_str gnc_str g2ofile pcm_t pcm_R gnc_barcsq mcm more in
  let out := output_folder_of argv in
  let p := apply_call (logOutput out) default_params in
  let r := main atof dataset default_params argv in
  trace r
  = (trace (max_clique_method_of mcm)
       ++ [ParamsSet (logOutput out);
           Log WARNING "Unsupported PCM option";
           Load2D g2ofile NullModel 0 false true NoiseFormatG2O]
       ++ match dataset g2ofile with
          | Some gv => trace (Simulate Pose2 gv p out)
          | None => []
          end)%list
  /\ outcome r
    = match dataset g2ofile with
      | Some gv => outcome (Simulate Pose2 gv p out)
      | None => Aborted (LoadFailed g2ofile)
      end
  /\ params_calls (trace r) = [logOutput out].
Proof.
  intros H1 H2 H3 argv out p r. subst r p out argv.
  enter_main m logged Hm Hlog p Hcfg.
  rewrite (main_params_calls atof dataset default_params Hm Hlog Hcfg).
  rewrite (main_phases _ _ _ _ _ _ _ _ _ _ _ _ _ _ _ _ Hm Hcfg), Hm.
  cbn [trace outcome].
  rewrite load_and_simulate_unfold.
  configure_path. injection Hcfg as <-.
  destruct (dataset g2ofile); repeat split.
Qed.

(** C10. In each of the three PCM modes a GNC token other than [NoGNC] and
    [GNC] is answered by a warning and by nothing else: between
    [setMaxCliqueMethod] and the read of the graph file the run logs the
    warning only, [setGncInlierCostThresholds] is never called, and the
    parameters that the solver is built from keep the GNC switch and the GNC
    threshold of the default-constructed ones; with [NoGNC] the setter is
    called with the largest double. *)
Theorem unsupported_gnc_leaves_default
    (argv0 pcm_str gnc_str g2ofile pcm_t pcm_R gnc_barcsq mcm : string) (more : list string) :
  recognized_pcm pcm_str -> gnc_str <> "NoGNC" -> gnc_str <> "GNC" ->
  let argv gnc := command_line argv0 pcm_str gnc g2ofile pcm_t pcm_R gnc_barcsq mcm more in
  let t := trace (main atof dataset default_params (argv gnc_str)) in
  gnc_costs t = []
  /\ (exists before after m,
        t = (before
               ++ [ParamsSet (setMaxCliqueMethod m);
                   Log WARNING "Unsupported GNC option";
                   Load2D g2ofile NullModel 0 false true NoiseFormatG2O]
               ++ after)%list)
  /\ (exists pcm_call m,
        params_calls t
        = [logOutput (output_folder_of (argv gnc_str)); pcm_call; setMaxCliqueMethod m]
        /\ pcm_calls t = [pcm_call])
  /\ length (solver_params t) = match dataset g2ofile with Some _ => 1%nat | None => 0%nat end
  /\ Forall (fun p =>
               use_gnc p = use_gnc default_params
               /\ gnc_inlier_cost p = gnc_inlier_cost default_params)
            (solver_params t)
  /\ gnc_costs (trace (main atof dataset default_params (argv "NoGNC"))) = [DBL_MAX].
Proof.
  intros Hpcm H1 H2 argv t. subst t argv. cbn beta.
  split; [|split; [|split; [|split; [|split]]]].
  6:{ enter_main m logged Hm Hlog p Hcfg.
      rewrite (main_gnc_costs atof dataset default_params Hm Hlog Hcfg).
      destruct Hpcm as [-> | [-> | ->]]; configure_path; injection Hcfg as <-;
        reflexivity. }
  all: enter_main m logged Hm Hlog p Hcfg.
  - rewrite (main_gnc_costs atof dataset default_params Hm Hlog Hcfg).
    destruct Hpcm as [-> | [-> | ->]]; configure_path; injection Hcfg as <-; reflexivity.
  - rewrite (main_phases _ _ _ _ _ _ _ _ _ _ _ _ _ _ _ _ Hm Hcfg). cbn [trace].
    rewrite load_and_simulate_unfold.
    destruct Hpcm as [-> | [-> | ->]]; configure_path; injection Hcfg as <-.
    all: destruct (dataset g2ofile); cbn [trace].
    all: eexists (logged ++ [_; _])%list; eexists; exists m.
    all: rewrite <- !app_assoc; cbn [app]; reflexivity.
  - rewrite (main_params_calls atof dataset default_params Hm Hlog Hcfg).
    rewrite (main_pcm_calls atof dataset default_params Hm Hlog Hcfg).
    destruct Hpcm as [-> | [-> | ->]]; configure_path; injection Hcfg as <-.
    all: eexists; exists m; split; reflexivity.
  - rewrite (main_solver_params atof dataset default_params Hm Hlog Hcfg).
    now destruct (dataset g2ofile).
  - rewrite (main_solver_params atof dataset default_params Hm Hlog Hcfg).
    destruct Hpcm as [-> | [-> | ->]]; configure_path; injection Hcfg as <-.
    all: destruct (dataset g2ofile); repeat constructor.
Qed.

End MainClaims.

(** ** The claims on the sample inputs *)

(** C1 at the token [exhaustive]. *)
Lemma max_clique_method_token_witness :
  max_clique_method_of "exhaustive"
  = mkRun [Log WARNING
             "Unsupported Max Clique Method (options are: pmc_exct, pmc_heu, clipper) ";
           Log INFO "Max Clique Solver: PMC (Heuristic)"] (Done PMC_HEU).
Proof.
  apply (proj1 (proj2 (proj2 (proj2
           (max_clique_method_token sample_atof sample_dataset sample_params
              "Comparison" "NoPCM" "NoGNC" "graph.g2o" "0.5" "0.5" "1" "exhaustive"
              ["out"]))))); discriminate.
Defined.

(** C3 in the mode [PCM2dSimp]. *)
Lemma gnc_threshold_passed_witness :
  gnc_costs (trace (main sample_atof sample_dataset sample_params
      (command_line "Comparison" "PCM2dSimp" "NoGNC" "graph.g2o" "0.5" "0.5" "1"
         "pmc_exact" ["out"]))) = [DBL_MAX]
  /\ gnc_costs (trace (main sample_atof sample_dataset sample_params
      (command_line "Comparison" "PCM2dSimp" "GNC" "graph.g2o" "0.5" "0.5" "1"
         "pmc_exact" ["out"]))) = [one].
Proof.
  pose proof (gnc_threshold_passed sample_atof sample_dataset sample_params
                "Comparison" "PCM2dSimp" "graph.g2o" "0.5" "0.5" "1" "pmc_exact" ["out"]
                (or_intror (or_introl eq_refl))) as (E1 & E2 & _).
  split; [exact E1 | exact E2].
Defined.

(** C5 at the PCM token [3d]: the graph is read and the solver runs. *)
Lemma unsupported_pcm_still_solves_witness :
  solver_ops (trace (main sample_atof sample_dataset sample_params
      (command_line "Comparison" "3d" "GNC" "graph.g2o" "0.5" "0.5" "1"
         "pmc_exact" ["out"]))) = [OpUpdate; OpSaveData]
  /\ params_calls (trace (main sample_atof sample_dataset sample_params
      (command_line "Comparison" "3d" "GNC" "graph.g2o" "0.5" "0.5" "1"
         "pmc_exact" ["out"]))) = [logOutput "out"].
Proof.
  assert (H1 : "3d" <> "NoPCM") by discriminate.
  assert (H2 : "3d" <> "PCM2dSimp") by discriminate.
  assert (H3 : "3d" <> "PCM2dOrig") by discriminate.
  pose proof (unsupported_pcm_still_solves sample_atof sample_dataset sample_params
                "Comparison" "3d" "GNC" "graph.g2o" "0.5" "0.5" "1" "pmc_exact" ["out"]
                H1 H2 H3) as (Et & _ & Ec).
  cbv zeta in Et, Ec. split; [rewrite Et; reflexivity | exact Ec].
Defined.

(** C10 at the GNC token [gnc]. *)
Lemma unsupported_gnc_leaves_default_witness :
  gnc_costs (trace (main sample_atof sample_dataset sample_params
      (command_line "Comparison" "PCM2dOrig" "gnc" "graph.g2o" "0.5" "0.5" "1"
         "pmc_exact" ["out"]))) = []
  /\ Forall (fun p => use_gnc p = false /\ gnc_inlier_cost p = one)
       (solver_params (trace (main sample_atof sample_dataset sample_params
          (command_line "Comparison" "PCM2dOrig" "gnc" "graph.g2o" "0.5" "0.5" "1"
             "pmc_exact" ["out"])))).
Proof.
  assert (H1 : "gnc" <> "NoGNC") by discriminate.
  assert (H2 : "gnc" <> "GNC") by discriminate.
  pose proof (unsupported_gnc_leaves_default sample_atof sample_dataset sample_params
                "Comparison" "PCM2dOrig" "gnc" "graph.g2o" "0.5" "0.5" "1" "pmc_exact"
                ["out"] (or_intror (or_intror eq_refl)) H1 H2) as (E & _ & _ & _ & F & _).
  split; [exact E | exact F].
Defined.

(** C6 on the command line that the usage comment (lines 25-26) gives for a
    3D graph: the file [sphere.g2o] is not read at all, in no dimension; the
    one read of the run is a 2D read of a file named by the translation
    threshold, and the run ends there. *)
Lemma usage_3d_is_read_as_2d :
  reads (trace (main sample_atof sample_dataset sample_params usage_3d))
  = [Load2D "0.5" NullModel 0 false true NoiseFormatG2O]
  /\ Forall (fun e => e <> Load3D "sphere.g2o")
            (trace (main sample_atof sample_dataset sample_params usage_3d))
  /\ outcome (main sample_atof sample_dataset sample_params usage_3d)
     = Aborted (LoadFailed "0.5").
Proof.
  split; [reflexivity|]. split; [|reflexivity].
  vm_compute. repeat constructor; discriminate.
Qed.

(** C7 on the sample graph, among callees that return; and on the sample
    graph with a dangling edge, where [update] is called and fails, and
    [saveData] is not called. *)
Lemma update_then_save_when_anchored_witness :
  solver_ops (trace (Simulate_in returning Pose2 sample_graph sample_params "out"))
  = [OpUpdate; OpSaveData]
  /\ outcome (Simulate_in returning Pose2 sample_graph sample_params "out") = Done tt
  /\ solver_ops (trace (Simulate_in strict_solver Pose2 dangling_graph sample_params "out"))
     = [OpUpdate].
Proof.
  destruct (proj1 (update_then_save_when_anchored returning Pose2 sample_graph
                     sample_params "out")
              (BetweenFactor 0%N 1%N (VPose2 step) NullModel) 0%N (VPose2 origin) origin)
    as (E1 & _ & E2); try reflexivity.
  split; [exact E1|]. split; [exact (E2 eq_refl) | reflexivity].
Defined.

(** C7, as stated, fails on a pose graph without edges: the run of
    [Simulate] ends at [nfg[0]], before [update], and calls neither [update]
    nor [saveData]; [main] gets there from a file that holds vertices
    only. *)
Lemma simulate_without_edges :
  solver_ops (trace (Simulate Pose2 vertices_only sample_params "out")) = []
  /\ solver_ops (trace (Simulate Pose2 vertices_only sample_params "out"))
     <> [OpUpdate; OpSaveData]
  /\ outcome (Simulate Pose2 vertices_only sample_params "out")
     = Aborted (GraphIndexOutOfRange 0)
  /\ solver_ops (trace (main sample_atof sample_dataset sample_params edgeless_run)) = []
  /\ solver_ops (trace (Simulate_in strict_solver Pose2 vertices_only sample_params "out"))
     = [].
Proof. repeat split; try reflexivity. discriminate. Qed.

(** A first factor without keys among callees whose [front()] yields key
    0: the run goes on to the solve. *)
Lemma Simulate_in_stray_key_witness :
  solver_ops (trace (Simulate_in strict_solver Pose2 keyless_graph sample_params "out"))
  = [OpUpdate; OpSaveData].
Proof.
  apply (Simulate_in_stray_key strict_solver [] (<[0%N := VPose2 origin]> ∅)
           sample_params "out" 0%N origin); reflexivity.
Defined.

(** C9 on the sample graph. *)
Lemma prior_anchors_first_key_witness :
  updates (trace (Simulate Pose2 sample_graph sample_params "out"))
  = [((sample_graph.1
         ++ [PriorFactor 0%N (VPose2 origin) (DiagonalSigmas [zero; zero; zero])])%list,
      sample_graph.2)].
Proof.
  rewrite (proj1 (prior_anchors_first_key Pose2 sample_graph sample_params "out")).
  reflexivity.
Defined.

(** * Further properties of the driver *)

(** ** What a run of main shows of the solver *)

Section ObservedSolver.
Variable atof : string -> double.
Variable dataset : string -> option GraphAndValues.
Variable default_params : RobustSolverParams.
Context {argv0 pcm_str gnc_str g2ofile pcm_t pcm_R gnc_barcsq mcm : string}
        {more : list string} {m : MaxCliqueMethod} {logged cfg : list Event}
        {p : RobustSolverParams}.

Local Abbreviation argv :=
  (command_line argv0 pcm_str gnc_str g2ofile pcm_t pcm_R gnc_barcsq mcm more).

Hypothesis Hm : max_clique_method_of mcm = mkRun logged (Done m).
Hypothesis Hlog : Forall (fun e => is_log e = true) logged.
Hypothesis Hcfg :
  configure pcm_str gnc_str (atof pcm_t) (atof pcm_R) (atof gnc_barcsq) m
            (verbosity_of argv)
            (apply_call (logOutput (output_folder_of argv)) default_params)
  = mkRun cfg (Done p).

(** A reading that skips log lines, calls on [params] and reads sees the
    calls of [Simulate] only. *)
Lemma main_solver_observed {B : Type} (f : Event -> option B) :
  (forall e, is_log e || is_params_call e || is_read e = true -> f e = None) ->
  omap f (trace (main atof dataset default_params argv))
  = match dataset g2ofile with
    | Some gv => omap f (trace (Simulate Pose2 gv p (output_folder_of argv)))
    | None => []
    end.
Proof using Hm Hlog Hcfg.
  intros Hf.
  rewrite (main_observed _ _ _ f _ _ _ _ _ _ _ _ _ _ _ _ _ Hm Hcfg).
  rewrite (omap_none f is_log logged);
    [|intros e He; apply Hf; now rewrite He|exact Hlog].
  rewrite (omap_none f (fun e => is_log e || is_params_call e) (_ :: cfg));
    [|intros e He; apply Hf; now rewrite He
     |constructor; [reflexivity | apply (cfg_events atof default_params Hcfg)]].
  cbn [app]. rewrite load_and_simulate_unfold.
  destruct (dataset g2ofile) as [gv|]; cbn [trace]; cbn; now rewrite Hf.
Qed.

Lemma main_solver_ops :
  solver_ops (trace (main atof dataset default_params argv))
  = match dataset g2ofile with
    | Some gv => solver_ops (trace (Simulate Pose2 gv p (output_folder_of argv)))
    | None => []
    end.
Proof using Hm Hlog Hcfg. apply main_solver_observed. now intros []. Qed.


Lemma main_outcome :
  outcome (main atof dataset default_params argv)
  = match dataset g2ofile with
    | Some gv => outcome (Simulate Pose2 gv p (output_folder_of argv))
    | None => Aborted (LoadFailed g2ofile)
    end.
Proof using Hm Hcfg.
  rewrite (main_phases _ _ _ _ _ _ _ _ _ _ _ _ _ _ _ _ Hm Hcfg). cbn [outcome].
  rewrite load_and_simulate_unfold. now destruct (dataset g2ofile).
Qed.

End ObservedSolver.

(** ** The command line *)

Section CommandLine.
Variable atof : string -> double.
Variable dataset : string -> option GraphAndValues.
Variable default_params : RobustSolverParams.

(** X1. [main] reads [argv[1]] to [argv[7]] without looking at [argc]
    (lines 59-65): with fewer than seven arguments the run ends at the first
    argument that is missing, before anything is logged, configured or
    read. *)
Theorem main_too_few_arguments (argv : list string) :
  (length argv < 8)%nat ->
  main atof dataset default_params argv
  = mkRun [] (Aborted (NullArgument (Nat.max 1 (length argv)))).
Proof.
  intros Hlen.
  destruct argv as [|a0 [|a1 [|a2 [|a3 [|a4 [|a5 [|a6 [|a7 more]]]]]]]];
    try reflexivity.
  cbn in Hlen. lia.
Qed.


Lemma verbose_of_lookup (argv : list string) :
  verbose_of argv = true <-> argv !! 9%nat = Some "v".
Proof.
  unfold verbose_of. destruct (Nat.ltb_spec 9 (length argv)) as [Hlt|Hge].
  - destruct (lookup_lt_is_Some_2 argv 9 Hlt) as [flag Hflag]. rewrite Hflag. cbn.
    destruct (String.eqb_spec flag "v") as [-> | Hne]; split; try reflexivity;
      try discriminate.
    intros [= ->]. now contradiction Hne.
  - rewrite (lookup_ge_None_2 argv 9) by lia. split; discriminate.
Qed.

(** X4. The verbosity that reaches the PCM setter is [VERBOSE] when
    [argv[9]] is the string [v] and [QUIET] in every other case, a missing
    [argv[9]] included; it is never the [UPDATE] of the setter's default.
    In each of the three PCM modes the run makes one PCM setter call, and it
    carries this verbosity. *)
Theorem verbosity_flag
    (argv0 pcm_str gnc_str g2ofile pcm_t pcm_R gnc_barcsq mcm : string) (more : list string) :
  let argv := command_line argv0 pcm_str gnc_str g2ofile pcm_t pcm_R gnc_barcsq mcm more in
  let t := trace (main atof dataset default_params argv) in
  (argv !! 9%nat = Some "v" -> verbosity_of argv = VERBOSE)
  /\ (argv !! 9%nat <> Some "v" -> verbosity_of argv = QUIET)
  /\ (recognized_pcm pcm_str ->
      exists a b,
        pcm_calls t = [setPcm2DParams a b (verbosity_of argv)]
        \/ pcm_calls t = [setPcmSimple2DParams a b (verbosity_of argv)]).
Proof.
  intros argv t. subst t argv. split; [|split].
  - intros Hv. apply verbose_of_lookup in Hv. unfold verbosity_of. now rewrite Hv.
  - intros Hv. unfold verbosity_of.
    destruct (verbose_of _) eqn:E; [|reflexivity].
    apply verbose_of_lookup in E. contradiction.
  - intros Hpcm. enter_main m logged Hm Hlog p Hcfg.
    rewrite (main_pcm_calls atof dataset default_params Hm Hlog Hcfg).
    destruct Hpcm as [-> | [-> | ->]];
      destruct (gnc_cases gnc_str) as [-> | [-> | [? ?]]];
      configure_path; injection Hcfg as <-; do 2 eexists;
      first [left; reflexivity | right; reflexivity].
Qed.

(** X5. Arguments after [argv[9]] are ignored: a command line and its first
    ten entries give the same run. *)
Theorem trailing_arguments_ignored (argv : list string) :
  main atof dataset default_params argv
  = main atof dataset default_params (take 10 argv).
Proof.
  destruct argv as [|a0 [|a1 [|a2 [|a3 [|a4 [|a5 [|a6 [|a7 [|a8 [|a9 extra]]]]]]]]]];
    reflexivity.
Qed.

End CommandLine.

(** ** Simulate at its edges *)

Section SimulateEdges.
Context (T : Type) `{PoseType T}.
Variables (gv : GraphAndValues) (params : RobustSolverParams) (output_folder : string).

(** X8. [Simulate] builds the solver first and looks at the graph after
    (lines 35-50), so each of these inputs ends the run with the solver
    built and neither updated nor saved: an empty graph at [nfg[0]], and a
    first key that [values] does not hold, or holds at another type, at
    [values.at<T>]. *)
Theorem Simulate_failures :
  (gv.1 = [] ->
   Simulate T gv params output_folder
   = mkRun [NewRobustSolver params] (Aborted (GraphIndexOutOfRange 0)))
  /\ (forall f k, gv.1 !! 0%nat = Some f -> keys f !! 0%nat = Some k ->
      gv.2 !! k = None ->
      Simulate T gv params output_folder
      = mkRun [NewRobustSolver params] (Aborted (ValuesKeyDoesNotExist k)))
  /\ (forall f k v, gv.1 !! 0%nat = Some f -> keys f !! 0%nat = Some k ->
      gv.2 !! k = Some v -> of_value v = None ->
      Simulate T gv params output_folder
      = mkRun [NewRobustSolver params] (Aborted (ValuesIncorrectType k))).
Proof.
  repeat split.
  - intros Hnil. rewrite Simulate_unfold, Hnil. reflexivity.
  - intros f k Hf Hk Hv. rewrite Simulate_unfold, Hf, Hk, Hv. reflexivity.
  - intros f k v Hf Hk Hv Hx. rewrite Simulate_unfold, Hf, Hk, Hv, Hx. reflexivity.
Qed.

End SimulateEdges.

(** ** main from end to end *)

Section EndToEnd.
Variable atof : string -> double.
Variable dataset : string -> option GraphAndValues.
Variable default_params : RobustSolverParams.

(** X9. When the graph file cannot be read, the run has logged and
    configured as usual, the read is its last event, no solver is built and
    nothing is updated or saved. *)
Theorem unreadable_file_builds_no_solver
    (argv0 pcm_str gnc_str g2ofile pcm_t pcm_R gnc_barcsq mcm : string) (more : list string) :
  dataset g2ofile = None ->
  let r := main atof dataset default_params
             (command_line argv0 pcm_str gnc_str g2ofile pcm_t pcm_R gnc_barcsq mcm more) in
  outcome r = Aborted (LoadFailed g2ofile)
  /\ (exists configured,
        trace r
        = (configured ++ [Load2D g2ofile NullModel 0 false true NoiseFormatG2O])%list
        /\ Forall (fun e => is_log e || is_params_call e = true) configured)
  /\ solver_params (trace r) = []
  /\ solver_ops (trace r) = [].
Proof.
  intros Hnone r. subst r. enter_main m logged Hm Hlog p Hcfg.
  rewrite (main_outcome atof dataset default_params Hm Hcfg).
  rewrite (main_solver_ops atof dataset default_params Hm Hlog Hcfg).
  rewrite (main_solver_params atof dataset default_params Hm Hlog Hcfg).
  rewrite (main_phases _ _ _ _ _ _ _ _ _ _ _ _ _ _ _ _ Hm Hcfg). cbn [trace].
  rewrite load_and_simulate_unfold, Hnone. cbn [trace].
  repeat split.
  eexists. rewrite app_comm_cons, app_assoc. split; [reflexivity|].
  apply Forall_app. split.
  - eapply Forall_impl; [exact Hlog|]. cbn. now intros e ->.
  - constructor; [reflexivity | apply (cfg_events atof default_params Hcfg)].
Qed.


(** X6. In every run the configuration is complete before the graph file is
    read: the trace is a stretch of log lines and calls on [params], then
    the one read, then calls on the solver only, so the parameters are never
    touched once the solver exists. *)
Theorem configuration_before_read
    (argv0 pcm_str gnc_str g2ofile pcm_t pcm_R gnc_barcsq mcm : string) (more : list string) :
  exists configured solving,
    trace (main atof dataset default_params
             (command_line argv0 pcm_str gnc_str g2ofile pcm_t pcm_R gnc_barcsq mcm more))
    = (configured
         ++ Load2D g2ofile NullModel 0 false true NoiseFormatG2O :: solving)%list
    /\ Forall (fun e => is_log e || is_params_call e = true) configured
    /\ Forall (fun e => is_solver_call e = true) solving.
Proof.
  enter_main m logged Hm Hlog p Hcfg.
  rewrite (main_phases _ _ _ _ _ _ _ _ _ _ _ _ _ _ _ _ Hm Hcfg). cbn [trace].
  rewrite load_and_simulate_unfold.
  exists (logged ++ ParamsSet (logOutput (output_folder_of
            (command_line argv0 pcm_str gnc_str g2ofile pcm_t pcm_R gnc_barcsq mcm more)))
            :: trace (configure pcm_str gnc_str (atof pcm_t) (atof pcm_R) (atof gnc_barcsq) m
                        (verbosity_of (command_line argv0 pcm_str gnc_str g2ofile pcm_t pcm_R
                                         gnc_barcsq mcm more))
                        (apply_call (logOutput (output_folder_of
                           (command_line argv0 pcm_str gnc_str g2ofile pcm_t pcm_R gnc_barcsq
                              mcm more))) default_params)))%list.
  assert (Hc : Forall (fun e => is_log e || is_params_call e = true)
                 (logged ++ ParamsSet (logOutput (output_folder_of
            (command_line argv0 pcm_str gnc_str g2ofile pcm_t pcm_R gnc_barcsq mcm more)))
            :: trace (configure pcm_str gnc_str (atof pcm_t) (atof pcm_R) (atof gnc_barcsq) m
                        (verbosity_of (command_line argv0 pcm_str gnc_str g2ofile pcm_t pcm_R
                                         gnc_barcsq mcm more))
                        (apply_call (logOutput (output_folder_of
                           (command_line argv0 pcm_str gnc_str g2ofile pcm_t pcm_R gnc_barcsq
                              mcm more))) default_params)))%list).
  { apply Forall_app. split.
    - eapply Forall_impl; [exact Hlog|]. cbn. now intros e ->.
    - constructor; [reflexivity|]. pose proof (cfg_events atof default_params Hcfg) as Hev.
      exact Hev. }
  destruct (dataset g2ofile) as [gv|]; cbn [trace].
  - exists (trace (Simulate Pose2 gv p (output_folder_of
              (command_line argv0 pcm_str gnc_str g2ofile pcm_t pcm_R gnc_barcsq mcm more)))).
    split; [|split; [exact Hc | apply Simulate_solver_calls]].
    rewrite <- app_assoc. reflexivity.
  - exists []. split; [|split; [exact Hc | constructor]].
    rewrite <- app_assoc. reflexivity.
Qed.


(** X3. In each of the three PCM modes the calls on [params] come in one
    order: [logOutput], then the PCM setter of the mode, then
    [setMaxCliqueMethod] with the method of the max-clique token, then
    [setGncInlierCostThresholds] if it is called at all, which happens at
    most once. *)
Theorem params_calls_in_order
    (argv0 pcm_str gnc_str g2ofile pcm_t pcm_R gnc_barcsq mcm : string) (more : list string) :
  recognized_pcm pcm_str ->
  let argv := command_line argv0 pcm_str gnc_str g2ofile pcm_t pcm_R gnc_barcsq mcm more in
  let t := trace (main atof dataset default_params argv) in
  exists pcm_call m,
    outcome (max_clique_method_of mcm) = Done m
    /\ pcm_calls t = [pcm_call]
    /\ params_calls t
       = logOutput (output_folder_of argv) :: pcm_call :: setMaxCliqueMethod m
           :: map setGncInlierCostThresholds (gnc_costs t)
    /\ (length (gnc_costs t) <= 1)%nat.
Proof.
  intros Hpcm argv t. subst t argv. enter_main m logged Hm Hlog p Hcfg.
  rewrite (main_pcm_calls atof dataset default_params Hm Hlog Hcfg).
  rewrite (main_params_calls atof dataset default_params Hm Hlog Hcfg).
  rewrite (main_gnc_costs atof dataset default_params Hm Hlog Hcfg).
  rewrite Hm. cbn [outcome].
  destruct Hpcm as [-> | [-> | ->]];
    destruct (gnc_cases gnc_str) as [-> | [-> | [? ?]]];
    configure_path; injection Hcfg as <-.
  all: eexists; exists m; repeat split; cbn; lia.
Qed.

(** X10. The options [NoPCM] and [NoGNC] switch nothing off: the calls on
    [params], and the parameters the solver is built from, are those of a
    [PCM2dOrig] run with [GNC] whose two PCM thresholds and GNC threshold are
    the largest double. *)
Theorem no_options_are_max_thresholds
    (argv0 g2ofile pcm_t pcm_R gnc_barcsq pcm_t' pcm_R' gnc_barcsq' mcm : string)
    (more : list string) :
  atof pcm_t' = DBL_MAX -> atof pcm_R' = DBL_MAX -> atof gnc_barcsq' = DBL_MAX ->
  let off := trace (main atof dataset default_params
               (command_line argv0 "NoPCM" "NoGNC" g2ofile pcm_t pcm_R gnc_barcsq mcm more)) in
  let on := trace (main atof dataset default_params
               (command_line argv0 "PCM2dOrig" "GNC" g2ofile pcm_t' pcm_R' gnc_barcsq' mcm
                  more)) in
  params_calls off = params_calls on
  /\ solver_params off = solver_params on
  /\ gnc_costs off = [DBL_MAX]
  /\ pcm_calls off
     = [setPcm2DParams DBL_MAX DBL_MAX
          (verbosity_of (command_line argv0 "NoPCM" "NoGNC" g2ofile pcm_t pcm_R gnc_barcsq
                           mcm more))].
Proof.
  intros Ht HR Hb off on. subst off on.
  destruct (max_clique_method_of_logs mcm) as (m & logged & Hm & Hlog).
  rewrite (main_params_calls atof dataset default_params Hm Hlog
             (configure_NoPCM_NoGNC _ _ _ _ _ _)).
  rewrite (main_params_calls atof dataset default_params Hm Hlog
             (configure_PCM2dOrig_GNC _ _ _ _ _ _)).
  rewrite (main_solver_params atof dataset default_params Hm Hlog
             (configure_NoPCM_NoGNC _ _ _ _ _ _)).
  rewrite (main_solver_params atof dataset default_params Hm Hlog
             (configure_PCM2dOrig_GNC _ _ _ _ _ _)).
  rewrite (main_gnc_costs atof dataset default_params Hm Hlog
             (configure_NoPCM_NoGNC _ _ _ _ _ _)).
  rewrite (main_pcm_calls atof dataset default_params Hm Hlog
             (configure_NoPCM_NoGNC _ _ _ _ _ _)).
  rewrite Ht, HR, Hb. repeat split.
Qed.

End EndToEnd.

(** ** The further properties on the sample inputs *)

(** X1 with two arguments. *)
Lemma main_too_few_arguments_witness :
  main sample_atof sample_dataset sample_params ["Comparison"; "NoPCM"; "GNC"]
  = mkRun [] (Aborted (NullArgument 3)).
Proof.
  apply (main_too_few_arguments sample_atof sample_dataset sample_params
           ["Comparison"; "NoPCM"; "GNC"]).
  cbn. lia.
Defined.

(** X3 in the mode [PCM2dSimp] with [GNC]. *)
Lemma params_calls_in_order_witness :
  exists pcm_call m,
    outcome (max_clique_method_of "clipper") = Done m
    /\ pcm_calls (trace (main sample_atof sample_dataset sample_params
          (command_line "Comparison" "PCM2dSimp" "GNC" "graph.g2o" "0.5" "0.5" "1"
             "clipper" ["out"; "v"]))) = [pcm_call]
    /\ params_calls (trace (main sample_atof sample_dataset sample_params
          (command_line "Comparison" "PCM2dSimp" "GNC" "graph.g2o" "0.5" "0.5" "1"
             "clipper" ["out"; "v"])))
       = logOutput "out" :: pcm_call :: setMaxCliqueMethod m
           :: map setGncInlierCostThresholds [one]
    /\ (length [one] <= 1)%nat.
Proof.
  exact (params_calls_in_order sample_atof sample_dataset sample_params
           "Comparison" "PCM2dSimp" "GNC" "graph.g2o" "0.5" "0.5" "1" "clipper"
           ["out"; "v"] (or_intror (or_introl eq_refl))).
Defined.

(** X4 with and without the flag. *)
Lemma verbosity_flag_witness :
  verbosity_of (command_line "Comparison" "NoPCM" "GNC" "graph.g2o" "0.5" "0.5" "1"
                  "clipper" ["out"; "v"]) = VERBOSE
  /\ verbosity_of (command_line "Comparison" "NoPCM" "GNC" "graph.g2o" "0.5" "0.5" "1"
                     "clipper" ["out"; "verbose"]) = QUIET.
Proof.
  split.
  - apply (proj1 (verbosity_flag sample_atof sample_dataset sample_params
                    "Comparison" "NoPCM" "GNC" "graph.g2o" "0.5" "0.5" "1" "clipper"
                    ["out"; "v"])).
    reflexivity.
  - apply (proj1 (proj2 (verbosity_flag sample_atof sample_dataset sample_params
                    "Comparison" "NoPCM" "GNC" "graph.g2o" "0.5" "0.5" "1" "clipper"
                    ["out"; "verbose"]))).
    discriminate.
Defined.

(** X8 on a graph without factors, on a key without a value and on a key
    that holds a 3D pose. *)
Lemma Simulate_failures_witness :
  Simulate Pose2 vertices_only sample_params "out"
  = mkRun [NewRobustSolver sample_params] (Aborted (GraphIndexOutOfRange 0))
  /\ Simulate Pose2 unknown_key_graph sample_params "out"
     = mkRun [NewRobustSolver sample_params] (Aborted (ValuesKeyDoesNotExist 5%N))
  /\ Simulate Pose2 pose3_graph sample_params "out"
     = mkRun [NewRobustSolver sample_params] (Aborted (ValuesIncorrectType 0%N)).
Proof.
  split; [|split].
  - apply (proj1 (Simulate_failures Pose2 vertices_only sample_params "out")).
    reflexivity.
  - apply (proj1 (proj2 (Simulate_failures Pose2 unknown_key_graph sample_params "out"))
             (BetweenFactor 5%N 6%N (VPose2 step) NullModel)); reflexivity.
  - apply (proj2 (proj2 (Simulate_failures Pose2 pose3_graph sample_params "out"))
             (BetweenFactor 0%N 1%N (VPose2 step) NullModel) 0%N
             (VPose3 (mkPose3 [] []))); reflexivity.
Defined.

(** X9 on a file that does not exist. *)
Lemma unreadable_file_builds_no_solver_witness :
  outcome (main sample_atof sample_dataset sample_params
             (command_line "Comparison" "NoPCM" "GNC" "missing.g2o" "0.5" "0.5" "1"
                "clipper" ["out"]))
  = Aborted (LoadFailed "missing.g2o")
  /\ solver_params (trace (main sample_atof sample_dataset sample_params
             (command_line "Comparison" "NoPCM" "GNC" "missing.g2o" "0.5" "0.5" "1"
                "clipper" ["out"]))) = [].
Proof.
  destruct (unreadable_file_builds_no_solver sample_atof sample_dataset sample_params
              "Comparison" "NoPCM" "GNC" "missing.g2o" "0.5" "0.5" "1" "clipper" ["out"]
              eq_refl) as (E1 & _ & E2 & _).
  split; [exact E1 | exact E2].
Defined.

(** X10 with the numeral of the largest double in the three places. *)
Lemma no_options_are_max_thresholds_witness :
  params_calls (trace (main sample_atof_max sample_dataset sample_params
      (command_line "Comparison" "NoPCM" "NoGNC" "graph.g2o" "0.5" "0.5" "1" "clipper"
         ["out"])))
  = params_calls (trace (main sample_atof_max sample_dataset sample_params
      (command_line "Comparison" "PCM2dOrig" "GNC" "graph.g2o" "1.7976931348623157e308"
         "1.7976931348623157e308" "1.7976931348623157e308" "clipper" ["out"]))).
Proof.
  apply (proj1 (no_options_are_max_thresholds sample_atof_max sample_dataset sample_params
                  "Comparison" "graph.g2o" "0.5" "0.5" "1" "1.7976931348623157e308"
                  "1.7976931348623157e308" "1.7976931348623157e308" "clipper" ["out"]
                  eq_refl eq_refl eq_refl)).
Defined.
